(** * Opvera: the points system and the leaderboard of [supabase.sql],
      and the Gemini proxy of [DEPLOYMENT.md]

    A shallow embedding of the leaderboard part of the Supabase migration
    (tables, the four [calculate_*_points] functions, [update_leaderboard],
    [refresh_user_leaderboard], [refresh_all_leaderboard], the triggers that
    call them and the row-level-security policies), of the AI call wrapper
    that the documentation describes, and of the edge function with its
    client.

    The SQL is read as PostgreSQL runs it:
    - a statement ends with the new state of the tables or with a condition
      (an SQLSTATE); a condition undoes everything the statement did, the
      work of its triggers included;
    - a query inside a PL/pgSQL function is analysed when it is first
      run: names are resolved, operators are looked up by the types of
      their operands; then the policies of the tables it reads are
      added, and only then rows are read. A condition of an earlier step
      hides those of the later ones;
    - PL/pgSQL runs with [variable_conflict = error], its default: a name
      that is both a variable of the function and a column of a table of the
      query is ambiguous;
    - the functions are not [SECURITY DEFINER]: their statements run with the
      rights of the caller, policies included. A session is either exempt
      from row-level security (the owner of the tables, a role with
      [BYPASSRLS]) or a client, with the [auth.uid()] of its token. Clients
      hold the table privileges, so that the policies are the only gate;
    - [auth.uid()] is text, as the policies compare it with a [TEXT] column;
    - a table without a lookup by key is a list of rows; the [leaderboard]
      table is a finite map keyed by its primary key. Rows carry the columns
      that the functions, the triggers, the constraints between the tables
      and the policies read;
    - [NULL] is [None]; a [WHERE] clause keeps the rows whose condition is
      [TRUE];
    - [INTEGER] values are in [Z]: the counts stay far below 2^31;
    - [NOW()] is the timestamp of the running transaction, an argument of
      every operation;
    - the order of rows with equal [total_points] under
      [ORDER BY total_points DESC] is not fixed by SQL: ranking is a
      relation, and [sort_by_total] is one admissible order used to run it. *)

From Stdlib Require Import ZArith List Lia.
From stdpp Require Import gmap strings sorting.

Abbreviation uuid := N (only parsing).
Abbreviation timestamptz := Z (only parsing).

(** ** Conditions *)

(** The conditions the statements of the model end with, by SQLSTATE. *)
Inductive error :=
| undefined_function          (** 42883: operator does not exist *)
| ambiguous_column            (** 42702: column reference is ambiguous *)
| undefined_column            (** 42703: record has no field *)
| invalid_object_definition   (** 42P17: infinite recursion detected in policy *)
| insufficient_privilege      (** 42501: new row violates row-level security policy *)
| not_null_violation          (** 23502 *)
| foreign_key_violation       (** 23503 *)
| unique_violation.           (** 23505 *)

Global Instance error_eq_dec : EqDecision error.
Proof. solve_decision. Defined.

(** A value or a condition. *)
Global Instance error_ret : MRet (sum error) := λ A, inr.
Global Instance error_bind : MBind (sum error) :=
  λ A B f m, match m with inl e => inl e | inr a => f a end.

(** ** SQL expressions *)

Module SQL.

(** [a AND b] in three-valued logic. *)
Definition and3 (a b : option bool) : option bool :=
  match a, b with
  | Some false, _ | _, Some false => Some false
  | Some true, Some true => Some true
  | _, _ => None
  end.

(** [a = b] on nullable values. *)
Definition eq3 {A B} (eqb : A → B → bool) (a : option A) (b : option B) : option bool :=
  match a, b with
  | Some x, Some y => Some (eqb x y)
  | _, _ => None
  end.

(** [x = ANY(arr)]: true when an element equals [x], null when the array
    is null or when no element matches and one of them is null. *)
Definition eq_any (x : string) (arr : option (list (option string))) : option bool :=
  match arr with
  | None => None
  | Some l =>
      if existsb (λ e, match e with Some s => String.eqb x s | None => false end) l
      then Some true
      else if existsb (λ e, match e with None => true | Some _ => false end) l
           then None
           else Some false
  end.

(** A [WHERE] or [ON] condition keeps a row only when it is true. *)
Definition holds (c : option bool) : bool :=
  match c with Some true => true | _ => false end.

Definition is_not_null {A} (a : option A) : bool :=
  match a with Some _ => true | None => false end.

Definition is_null {A} (a : option A) : bool := negb (is_not_null a).

Fixpoint coalesce {A} (l : list (option A)) : option A :=
  match l with
  | [] => None
  | Some x :: _ => Some x
  | None :: l' => coalesce l'
  end.

(** [COALESCE(e, d)] with a non-null last argument. *)
Definition coalesce_or {A} (e : option A) (d : A) : A :=
  match e with Some x => x | None => d end.

(** [COUNT( * )] over the rows of a result. *)
Definition count_star {A} (rows : list A) : Z := Z.of_nat (length rows).

(** [SUM(e)]: null over no rows. *)
Definition sum (vals : list Z) : option Z :=
  match vals with
  | [] => None
  | _ => Some (foldr Z.add 0%Z vals)
  end.

(** [l WITH ORDINALITY]: each element with its position, from 1. *)
Definition with_ordinality {A} (l : list A) : list (A * Z) :=
  imap (λ i x, (x, Z.of_nat (S i))) l.

(** [l1 JOIN l2 ON on]. *)
Definition join {A B} (l1 : list A) (l2 : list B) (on : A → B → bool) : list (A * B) :=
  flat_map (λ a, map (pair a) (List.filter (on a) l2)) l1.

End SQL.

(** ** JSON values stored in [quiz_attempts.answers] *)

Inductive jsonb :=
| JNull
| JBool (b : bool)
| JNumber (n : Z)
| JString (s : string).

Global Instance jsonb_eq_dec : EqDecision jsonb.
Proof. solve_decision. Defined.

(** ** Types and the operator [=] *)

(** The types of the operands that the queries of the functions compare. *)
Inductive sqltype := UUID | TEXT | INTEGER | BIGINT | BOOLEAN | JSONB.

Definition value_of (t : sqltype) : Type :=
  match t with
  | UUID => uuid
  | TEXT => string
  | INTEGER | BIGINT => Z
  | BOOLEAN => bool
  | JSONB => jsonb
  end.

(** The operator that [l = r] names, by the types of its operands: one
    exists for two operands of the same type and for two integer types;
    there is none that takes a [jsonb] and an [integer], and no implicit
    cast between the two. *)
Definition eq_operator (l r : sqltype)
    : error + (value_of l → value_of r → bool) :=
  match l as l0, r as r0 return error + (value_of l0 → value_of r0 → bool) with
  | UUID, UUID => inr N.eqb
  | TEXT, TEXT => inr String.eqb
  | INTEGER, INTEGER => inr Z.eqb
  | INTEGER, BIGINT => inr Z.eqb
  | BIGINT, INTEGER => inr Z.eqb
  | BIGINT, BIGINT => inr Z.eqb
  | BOOLEAN, BOOLEAN => inr Bool.eqb
  | JSONB, JSONB => inr (λ a b, bool_decide (a = b))
  | _, _ => inl undefined_function
  end.

(** ** Tables *)

Inductive role := student | mentor | company | admin | banned.

Global Instance role_eq_dec : EqDecision role.
Proof. solve_decision. Defined.

Module User.
Record row := mk { id : uuid; auth_uid : string; role_of : role }.
End User.

(** [verified] and [tags] have defaults but no [NOT NULL]. *)
Module Project.
Record row := mk {
  id : uuid;
  owner_id : uuid;
  tags : option (list (option string));
  verified : option bool }.
End Project.

Module Assignment.
Record row := mk {
  id : uuid;
  student_id : uuid;
  submission_url : option string }.
End Assignment.

(** One element of [quizzes.questions]:
    [{question, options, correctIndex, explanation}]. *)
Record question := mk_question {
  question_text : string;
  options : list string;
  correctIndex : option Z;
  explanation : string }.

Module Quiz.
Record row := mk { id : uuid; created_by : uuid; questions : list question }.
End Quiz.

(** [answers] is the JSON array of the column (a null column has no
    elements, like the empty array). *)
Module QuizAttempt.
Record row := mk {
  id : uuid;
  quiz_id : uuid;
  student_id : uuid;
  answers : list jsonb;
  completed_at : option timestamptz }.
End QuizAttempt.

(** [breakdown]: the object built by [jsonb_build_object]. *)
Record breakdown := mk_breakdown {
  quizzes_pts : Z;
  assignments_pts : Z;
  projects_pts : Z;
  challenges_pts : Z }.

(** A leaderboard row without its key [user_id]. *)
Record lb_entry := mk_entry {
  total_points : Z;
  breakdown_of : breakdown;
  rank : option Z;
  updated_at : timestamptz }.

Record database := mk_db {
  users : list User.row;
  projects : list Project.row;
  assignments : list Assignment.row;
  quizzes : list Quiz.row;
  quiz_attempts : list QuizAttempt.row;
  leaderboard : gmap uuid lb_entry }.

Global Instance breakdown_eq_dec : EqDecision breakdown.
Proof. solve_decision. Defined.
Global Instance lb_entry_eq_dec : EqDecision lb_entry.
Proof. solve_decision. Defined.

Inductive table :=
  t_users | t_projects | t_assignments | t_quizzes | t_quiz_attempts | t_leaderboard.

Global Instance table_eq_dec : EqDecision table.
Proof. solve_decision. Defined.

(** The columns of the [CREATE TABLE] statements. *)
Definition columns (t : table) : list string :=
  match t with
  | t_users =>
      ["id"; "auth_uid"; "role"; "display_name"; "email"; "avatar_url"; "bio"; "skills";
       "socials"; "banned"; "created_at"; "updated_at"]
  | t_projects =>
      ["id"; "owner_id"; "title"; "description"; "files"; "github_url"; "tags";
       "points_awarded"; "verified"; "mentor_notes"; "created_at"; "updated_at"]
  | t_assignments =>
      ["id"; "student_id"; "title"; "submission_url"; "points"; "verified"; "mentor_notes";
       "created_at"; "updated_at"]
  | t_quizzes =>
      ["id"; "created_by"; "title"; "description"; "questions"; "difficulty"; "topic";
       "ai_generated"; "metadata"; "created_at"; "updated_at"]
  | t_quiz_attempts =>
      ["id"; "quiz_id"; "student_id"; "answers"; "score"; "max_score"; "completed_at";
       "metadata"; "created_at"; "updated_at"]
  | t_leaderboard =>
      ["user_id"; "total_points"; "breakdown"; "rank"; "updated_at"]
  end.

(** A row of one of the tables. *)
Inductive trigger_row :=
| user_row (u : User.row)
| project_row (p : Project.row)
| assignment_row (a : Assignment.row)
| quiz_row (q : Quiz.row)
| attempt_row (qa : QuizAttempt.row)
| leaderboard_row (user_id : uuid) (e : lb_entry).

Definition table_of (r : trigger_row) : table :=
  match r with
  | user_row _ => t_users
  | project_row _ => t_projects
  | assignment_row _ => t_assignments
  | quiz_row _ => t_quizzes
  | attempt_row _ => t_quiz_attempts
  | leaderboard_row _ _ => t_leaderboard
  end.

(** ** Names inside a PL/pgSQL function *)

Module PLpgSQL.

Inductive reference := column | variable.

(** An unqualified [name] in a query of a function with the parameters and
    variables [variables], over tables with the columns [cols]. *)
Definition resolve (variables cols : list string) (name : string) : error + reference :=
  match bool_decide (name ∈ cols), bool_decide (name ∈ variables) with
  | true, true => inl ambiguous_column
  | true, false => inr column
  | false, true => inr variable
  | false, false => inl undefined_column
  end.

(** [record.name] for a record of a row type with the columns [cols]. *)
Definition field (cols : list string) (name : string) : error + unit :=
  if bool_decide (name ∈ cols) then inr () else inl undefined_column.

End PLpgSQL.

(** The parameters and declared variables of the functions. *)
Definition points_variables : list string := ["student_id"; "total_points"].

Definition update_leaderboard_variables : list string :=
  ["target_user_id"; "quiz_points"; "assignment_points"; "project_points";
   "challenge_points"; "total_points"].

Definition refresh_user_leaderboard_variables : list string :=
  ["user_id"; "quiz_points"; "assignment_points"; "project_points";
   "challenge_points"; "total_points"].

Definition refresh_all_leaderboard_variables : list string := ["user_record"].

(** ** Row-level security *)

Inductive session :=
| table_owner                       (** exempt from row-level security *)
| client (uid : option string).     (** [auth.uid()], null without a token *)

Inductive command := cmd_select | cmd_insert | cmd_update | cmd_delete.

Global Instance command_eq_dec : EqDecision command.
Proof. solve_decision. Defined.

(** [CREATE POLICY name ON table FOR command USING/WITH CHECK (expr)]:
    whether [expr] has a sub-select on [users], and [expr] itself for the
    caller's [auth.uid()], the rows of [users] the sub-select sees and a
    row of the table. *)
Record policy := mk_policy {
  pol_name : string;
  pol_table : table;
  pol_command : command;
  pol_reads_users : bool;
  pol_expr : option string → list User.row → trigger_row → bool }.

(** [EXISTS (SELECT 1 FROM users WHERE id = key AND auth_uid = auth.uid())] *)
Definition is_own (uid : option string) (visible : list User.row) (key : uuid) : bool :=
  existsb (λ u, SQL.holds (SQL.and3 (Some (N.eqb (User.id u) key))
                                    (SQL.eq3 String.eqb (Some (User.auth_uid u)) uid)))
          visible.

(** [EXISTS (SELECT 1 FROM users WHERE auth_uid = auth.uid() AND role IN roles)] *)
Definition has_role (roles : list role) (uid : option string) (visible : list User.row) : bool :=
  existsb (λ u, SQL.holds (SQL.and3 (SQL.eq3 String.eqb (Some (User.auth_uid u)) uid)
                                    (Some (bool_decide (User.role_of u ∈ roles)))))
          visible.

(** [EXISTS (SELECT 1 FROM users WHERE id = key AND auth_uid = auth.uid()
    AND role IN roles)] *)
Definition is_own_with_role (roles : list role) (uid : option string)
    (visible : list User.row) (key : uuid) : bool :=
  existsb (λ u, SQL.holds
                  (SQL.and3
                     (SQL.and3 (Some (N.eqb (User.id u) key))
                               (SQL.eq3 String.eqb (Some (User.auth_uid u)) uid))
                     (Some (bool_decide (User.role_of u ∈ roles)))))
          visible.

(** The policies on the tables of the model, in the order of the file. *)
Definition policies : list policy :=
  [ mk_policy "Users can view their own profile" t_users cmd_select false
      (λ uid _ r, match r with
                  | user_row u => SQL.holds (SQL.eq3 String.eqb uid (Some (User.auth_uid u)))
                  | _ => false
                  end);
    mk_policy "Users can update their own profile" t_users cmd_update false
      (λ uid _ r, match r with
                  | user_row u => SQL.holds (SQL.eq3 String.eqb uid (Some (User.auth_uid u)))
                  | _ => false
                  end);
    mk_policy "Admins can view all users" t_users cmd_select true
      (λ uid visible _, has_role [admin] uid visible);
    mk_policy "Users can view all verified projects" t_projects cmd_select false
      (λ _ _ r, match r with
                | project_row p => SQL.holds (SQL.eq3 Bool.eqb (Project.verified p) (Some true))
                | _ => false
                end);
    mk_policy "Users can view their own projects" t_projects cmd_select true
      (λ uid visible r, match r with
                        | project_row p => is_own uid visible (Project.owner_id p)
                        | _ => false
                        end);
    mk_policy "Users can create projects" t_projects cmd_insert true
      (λ uid visible r, match r with
                        | project_row p => is_own uid visible (Project.owner_id p)
                        | _ => false
                        end);
    mk_policy "Users can update their own projects" t_projects cmd_update true
      (λ uid visible r, match r with
                        | project_row p => is_own uid visible (Project.owner_id p)
                        | _ => false
                        end);
    mk_policy "Students can view their own assignments" t_assignments cmd_select true
      (λ uid visible r, match r with
                        | assignment_row a => is_own uid visible (Assignment.student_id a)
                        | _ => false
                        end);
    mk_policy "Mentors can view all assignments" t_assignments cmd_select true
      (λ uid visible _, has_role [mentor; admin] uid visible);
    mk_policy "Students can create assignments" t_assignments cmd_insert true
      (λ uid visible r, match r with
                        | assignment_row a => is_own uid visible (Assignment.student_id a)
                        | _ => false
                        end);
    mk_policy "Users can view all quizzes" t_quizzes cmd_select false (λ _ _ _, true);
    mk_policy "Mentors and admins can create quizzes" t_quizzes cmd_insert true
      (λ uid visible r, match r with
                        | quiz_row q =>
                            is_own_with_role [mentor; admin] uid visible (Quiz.created_by q)
                        | _ => false
                        end);
    mk_policy "Students can view their own quiz attempts" t_quiz_attempts cmd_select true
      (λ uid visible r, match r with
                        | attempt_row qa => is_own uid visible (QuizAttempt.student_id qa)
                        | _ => false
                        end);
    mk_policy "Students can create quiz attempts" t_quiz_attempts cmd_insert true
      (λ uid visible r, match r with
                        | attempt_row qa => is_own uid visible (QuizAttempt.student_id qa)
                        | _ => false
                        end);
    mk_policy "Users can view leaderboard" t_leaderboard cmd_select false (λ _ _ _, true);
    mk_policy "No direct leaderboard updates" t_leaderboard cmd_update false (λ _ _ _, false);
    mk_policy "No direct leaderboard inserts" t_leaderboard cmd_insert false (λ _ _ _, false);
    mk_policy "No direct leaderboard deletes" t_leaderboard cmd_delete false (λ _ _ _, false) ].

(** The policies of a table for a command. *)
Definition applicable (cmd : command) (t : table) : list policy :=
  List.filter (λ p, bool_decide (pol_table p = t) && bool_decide (pol_command p = cmd))
              policies.

(** What the policies for [cmd] add to a query on [t]: the condition that a
    row passes one of them; none passes when the table has no policy for the
    command. A policy with a sub-select has the policies of the table it
    reads added in turn, with [t] among the tables being expanded
    ([active]); coming back to one of these is an infinite recursion. Every
    level adds a table to [active], so the [fuel] of [depth] is never used
    up. *)
Fixpoint quals (fuel : nat) (active : list table) (uid : option string) (db : database)
    (cmd : command) (t : table) : error + (trigger_row → bool) :=
  match fuel with
  | 0 => inl invalid_object_definition
  | S fuel' =>
      let ps := applicable cmd t in
      if existsb pol_reads_users ps
      then if bool_decide (t ∈ active) then inl invalid_object_definition
           else
             visible ← quals fuel' (t :: active) uid db cmd_select t_users;
             mret (λ row,
                     existsb (λ p, pol_expr p uid
                                     (List.filter (λ u, visible (user_row u)) (users db)) row)
                             ps)
      else mret (λ row, existsb (λ p, pol_expr p uid [] row) ps)
  end.

Definition depth : nat := 7.

(** The rows of [t] a statement of the session may touch with [cmd]. A
    statement that reads a column of the table (in its [WHERE] clause or on
    the right of a [SET]) needs the right to select it, and has the
    [SELECT] policies added to those of its command. *)
Definition row_security (sess : session) (db : database) (cmd : command) (reads : bool)
    (t : table) : error + (trigger_row → bool) :=
  match sess with
  | table_owner => mret (λ _, true)
  | client uid =>
      q ← quals depth [] uid db cmd t;
      if reads && bool_decide (cmd ∈ [cmd_update; cmd_delete])
      then s ← quals depth [] uid db cmd_select t; mret (λ row, q row && s row)
      else mret q
  end.

(** The rows of a table that a [SELECT] of the session sees. *)
Definition visible_rows {A} (sess : session) (db : database) (t : table)
    (mk : A → trigger_row) (rows : list A) : error + list A :=
  visible ← row_security sess db cmd_select true t;
  mret (List.filter (λ r, visible (mk r)) rows).

(** ** The points functions *)

(** The subquery of [calculate_quiz_points]: answers and questions joined on
    their ordinal, counted where the answer is the correct index, for the
    operators that [ans.idx = ques.qidx] and [ans.answer = (...)::integer]
    name. *)
Definition correct_answers (on_idx : Z → Z → bool) (is_correct : jsonb → Z → bool)
    (answers : list jsonb) (questions : list question) : Z :=
  SQL.count_star
    (List.filter
       (λ '((answer, idx), (question, qidx)),
          SQL.holds (SQL.eq3 is_correct (Some answer) (correctIndex question)))
       (SQL.join (SQL.with_ordinality answers) (SQL.with_ordinality questions)
          (λ ans ques, on_idx ans.2 ques.2))).

(** Every name of the query is qualified. Its four [=] are looked up in the
    order of the analysis: the [ON] of the outer join, the [ON] and the
    [WHERE] of the subquery in the select list, the outer [WHERE]. *)
Definition calculate_quiz_points (sess : session) (student_id : option uuid)
    (db : database) : error + Z :=
  on_quiz ← eq_operator UUID UUID;
  on_idx ← eq_operator BIGINT BIGINT;
  is_correct ← eq_operator JSONB INTEGER;
  of_student ← eq_operator UUID UUID;
  attempts ← visible_rows sess db t_quiz_attempts attempt_row (quiz_attempts db);
  quizzes ← visible_rows sess db t_quizzes quiz_row (quizzes db);
  mret (SQL.coalesce_or
          (SQL.sum
             (map
                (λ '(qa, q),
                   if SQL.is_not_null (QuizAttempt.completed_at qa)
                   then correct_answers on_idx is_correct
                          (QuizAttempt.answers qa) (Quiz.questions q)
                   else 0%Z)
                (List.filter
                   (λ '(qa, q),
                      SQL.holds (SQL.eq3 of_student (Some (QuizAttempt.student_id qa))
                                         student_id))
                   (SQL.join attempts quizzes
                      (λ qa q, on_quiz (QuizAttempt.quiz_id qa) (Quiz.id q))))))
          0%Z).

(** [WHERE student_id = calculate_assignment_points.student_id
    AND submission_url IS NOT NULL]: the first [student_id] is unqualified. *)
Definition calculate_assignment_points (sess : session) (student_id : option uuid)
    (db : database) : error + Z :=
  _ ← PLpgSQL.resolve points_variables (columns t_assignments) "student_id";
  _ ← PLpgSQL.resolve points_variables (columns t_assignments) "submission_url";
  of_student ← eq_operator UUID UUID;
  rows ← visible_rows sess db t_assignments assignment_row (assignments db);
  mret (SQL.coalesce_or
          (Some (SQL.count_star
                   (List.filter
                      (λ a, SQL.holds
                              (SQL.and3
                                 (SQL.eq3 of_student (Some (Assignment.student_id a))
                                          student_id)
                                 (Some (SQL.is_not_null (Assignment.submission_url a)))))
                      rows) * 20)%Z)
          0%Z).

Definition calculate_project_points (sess : session) (student_id : option uuid)
    (db : database) : error + Z :=
  _ ← PLpgSQL.resolve points_variables (columns t_projects) "owner_id";
  _ ← PLpgSQL.resolve points_variables (columns t_projects) "verified";
  of_owner ← eq_operator UUID UUID;
  is_true ← eq_operator BOOLEAN BOOLEAN;
  rows ← visible_rows sess db t_projects project_row (projects db);
  mret (SQL.coalesce_or
          (Some (SQL.count_star
                   (List.filter
                      (λ p, SQL.holds
                              (SQL.and3
                                 (SQL.eq3 of_owner (Some (Project.owner_id p)) student_id)
                                 (SQL.eq3 is_true (Project.verified p) (Some true))))
                      rows) * 100)%Z)
          0%Z).

Definition calculate_challenge_points (sess : session) (student_id : option uuid)
    (db : database) : error + Z :=
  _ ← PLpgSQL.resolve points_variables (columns t_projects) "owner_id";
  _ ← PLpgSQL.resolve points_variables (columns t_projects) "verified";
  _ ← PLpgSQL.resolve points_variables (columns t_projects) "tags";
  of_owner ← eq_operator UUID UUID;
  is_true ← eq_operator BOOLEAN BOOLEAN;
  rows ← visible_rows sess db t_projects project_row (projects db);
  mret (SQL.coalesce_or
          (Some (SQL.count_star
                   (List.filter
                      (λ p, SQL.holds
                              (SQL.and3
                                 (SQL.and3
                                    (SQL.eq3 of_owner (Some (Project.owner_id p)) student_id)
                                    (SQL.eq3 is_true (Project.verified p) (Some true)))
                                 (SQL.eq_any "challenge" (Project.tags p))))
                      rows) * 80)%Z)
          0%Z).

(** ** Writing the leaderboard *)

Definition with_leaderboard (db : database) (lb : gmap uuid lb_entry) : database :=
  mk_db (users db) (projects db) (assignments db) (quizzes db) (quiz_attempts db) lb.

(** [INSERT INTO leaderboard (user_id, total_points, breakdown, updated_at)
    VALUES (...) ON CONFLICT (user_id) DO UPDATE SET total_points = ...,
    breakdown = ..., updated_at = ...] inside a function with the variables
    [variables]. The names in [VALUES] are variables, no column being in
    scope there; the [user_id] of [ON CONFLICT] is resolved like a name of a
    query. The policies for [INSERT] check the proposed row, then the key
    must not be null; a new row has no rank and its user must exist, a row
    that exists must pass the policies for [UPDATE] and keeps its rank. (The
    policies of the table do not read the key.) *)
Definition upsert (sess : session) (variables : list string) (now : timestamptz)
    (user_id : option uuid) (total : Z) (b : breakdown) (db : database)
    : error + gmap uuid lb_entry :=
  _ ← PLpgSQL.resolve variables (columns t_leaderboard) "user_id";
  check ← row_security sess db cmd_insert false t_leaderboard;
  reach ← row_security sess db cmd_update true t_leaderboard;
  let proposed := mk_entry total b None now in
  if negb (check (leaderboard_row (default 0%N user_id) proposed))
  then inl insufficient_privilege
  else
    match user_id with
    | None => inl not_null_violation
    | Some u =>
        match leaderboard db !! u with
        | None =>
            if bool_decide (u ∈ map User.id (users db))
            then mret (<[u := proposed]> (leaderboard db))
            else inl foreign_key_violation
        | Some old =>
            let new := mk_entry total b (rank old) now in
            if reach (leaderboard_row u old) && reach (leaderboard_row u new)
            then mret (<[u := new]> (leaderboard db))
            else inl insufficient_privilege
        end
    end.

(** The first half of [update_leaderboard] and [refresh_user_leaderboard]:
    the four subtotals, their sum, and the upsert. *)
Definition upsert_points (sess : session) (variables : list string) (now : timestamptz)
    (user_id : option uuid) (db : database) : error + database :=
  quiz_points ← calculate_quiz_points sess user_id db;
  assignment_points ← calculate_assignment_points sess user_id db;
  project_points ← calculate_project_points sess user_id db;
  challenge_points ← calculate_challenge_points sess user_id db;
  let total_points := (quiz_points + assignment_points + project_points + challenge_points)%Z in
  lb ← upsert sess variables now user_id total_points
         (mk_breakdown quiz_points assignment_points project_points challenge_points) db;
  mret (with_leaderboard db lb).

(** *** Ranks *)

(** [ORDER BY total_points DESC]. *)
Definition by_total_desc (a b : uuid * lb_entry) : Prop :=
  (total_points b.2 ≤ total_points a.2)%Z.

Global Instance by_total_desc_dec : RelDecision by_total_desc.
Proof. intros a b. unfold by_total_desc. apply _. Defined.

(** The orders in which the window of [ranked_users] may see the rows it
    reads: all of them, by descending total, ties in any order. *)
Definition ranked_order (lb : gmap uuid lb_entry) (sorted : list (uuid * lb_entry)) : Prop :=
  sorted ≡ₚ map_to_list lb ∧ StronglySorted by_total_desc sorted.

(** [SELECT user_id, ROW_NUMBER() OVER (...) AS new_rank]. *)
Definition row_number (sorted : list (uuid * lb_entry)) : list (uuid * Z) :=
  imap (λ i r, (r.1, Z.of_nat (S i))) sorted.

Definition set_rank (e : lb_entry) (r : Z) : lb_entry :=
  mk_entry (total_points e) (breakdown_of e) (Some r) (updated_at e).

(** [UPDATE leaderboard SET rank = ranked_users.new_rank FROM ranked_users
    WHERE leaderboard.user_id = ranked_users.user_id], on the rows the
    session may update. *)
Definition set_ranks (ranked_users : list (uuid * Z)) (reach : trigger_row → bool)
    (lb : gmap uuid lb_entry) : gmap uuid lb_entry :=
  map_imap
    (λ user_id e,
       Some match (list_to_map ranked_users : gmap uuid Z) !! user_id with
            | Some new_rank => if reach (leaderboard_row user_id e)
                               then set_rank e new_rank else e
            | None => e
            end)
    lb.

(** The analysis of the rank statement inside a function with the variables
    [variables]: [user_id] and [total_points] in the select list of
    [ranked_users] are unqualified; then the rows the session may read and
    those it may update. *)
Definition rank_statement (sess : session) (variables : list string) (db : database)
    : error + (trigger_row → bool) * (trigger_row → bool) :=
  _ ← PLpgSQL.resolve variables (columns t_leaderboard) "user_id";
  _ ← PLpgSQL.resolve variables (columns t_leaderboard) "total_points";
  visible ← row_security sess db cmd_select true t_leaderboard;
  reach ← row_security sess db cmd_update true t_leaderboard;
  mret (visible, reach).

(** The second half of both functions, for any admissible order; a row
    whose new version the policies for [UPDATE] refuse ends the statement. *)
Definition update_ranks (sess : session) (variables : list string) (db : database)
    (x : error + gmap uuid lb_entry) : Prop :=
  match rank_statement sess variables db with
  | inl e => x = inl e
  | inr (visible, reach) =>
      ∃ sorted,
        ranked_order (filter (λ ue, visible (leaderboard_row ue.1 ue.2) = true)
                             (leaderboard db)) sorted
        ∧ let lb' := set_ranks (row_number sorted) reach (leaderboard db) in
          x = if bool_decide (map_Forall (λ u e, reach (leaderboard_row u e) = true
                                                 ∨ leaderboard db !! u = Some e) lb')
              then inr lb' else inl insufficient_privilege
  end.

(** One admissible order: a stable merge sort of the rows in key order. *)
Definition sort_by_total (lb : gmap uuid lb_entry) : list (uuid * lb_entry) :=
  merge_sort by_total_desc (map_to_list lb).

Definition update_ranks_run (sess : session) (variables : list string) (db : database)
    : error + gmap uuid lb_entry :=
  '(visible, reach) ← rank_statement sess variables db;
  let sorted := sort_by_total (filter (λ ue, visible (leaderboard_row ue.1 ue.2) = true)
                                      (leaderboard db)) in
  let lb' := set_ranks (row_number sorted) reach (leaderboard db) in
  if bool_decide (map_Forall (λ u e, reach (leaderboard_row u e) = true
                                     ∨ leaderboard db !! u = Some e) lb')
  then inr lb' else inl insufficient_privilege.

(** ** The functions *)

Inductive result := Ok (db : database) | Raise (e : error).

(** What a function leaves when its last statement is the rank statement. *)
Definition ranked (db : database) (x : error + gmap uuid lb_entry) : result :=
  match x with
  | inl e => Raise e
  | inr lb => Ok (with_leaderboard db lb)
  end.

(** *** refresh_user_leaderboard *)

Definition refresh_user_leaderboard (sess : session) (now : timestamptz) (user_id : uuid)
    (db : database) (r : result) : Prop :=
  match upsert_points sess refresh_user_leaderboard_variables now (Some user_id) db with
  | inl e => r = Raise e
  | inr db1 =>
      ∃ x, update_ranks sess refresh_user_leaderboard_variables db1 x ∧ r = ranked db1 x
  end.

Definition refresh_user_leaderboard_run (sess : session) (now : timestamptz) (user_id : uuid)
    (db : database) : result :=
  match upsert_points sess refresh_user_leaderboard_variables now (Some user_id) db with
  | inl e => Raise e
  | inr db1 => ranked db1 (update_ranks_run sess refresh_user_leaderboard_variables db1)
  end.

(** *** refresh_all_leaderboard *)

(** The [FOR ... LOOP PERFORM refresh_user_leaderboard(user_record.id)]. *)
Inductive refresh_each (sess : session) (now : timestamptz)
  : list uuid → database → result → Prop :=
| refresh_each_nil db :
    refresh_each sess now [] db (Ok db)
| refresh_each_cons user_id ids db db1 r :
    refresh_user_leaderboard sess now user_id db (Ok db1) →
    refresh_each sess now ids db1 r →
    refresh_each sess now (user_id :: ids) db r
| refresh_each_raise user_id ids db e :
    refresh_user_leaderboard sess now user_id db (Raise e) →
    refresh_each sess now (user_id :: ids) db (Raise e).

Fixpoint refresh_each_run (sess : session) (now : timestamptz) (ids : list uuid)
    (db : database) : result :=
  match ids with
  | [] => Ok db
  | user_id :: ids' =>
      match refresh_user_leaderboard_run sess now user_id db with
      | Ok db1 => refresh_each_run sess now ids' db1
      | Raise e => Raise e
      end
  end.

(** [SELECT id FROM users WHERE role = 'student'], on the rows the session
    sees. *)
Definition student_ids (visible : list User.row) : list uuid :=
  map User.id (List.filter (λ u, bool_decide (User.role_of u = student)) visible).

(** [DELETE FROM leaderboard], which reads no column, on the rows the
    session may delete; then the query of the loop, then the loop. *)
Definition clear_leaderboard (sess : session) (db : database) : error + database * list uuid :=
  reach ← row_security sess db cmd_delete false t_leaderboard;
  let db1 := with_leaderboard db
               (filter (λ ue, reach (leaderboard_row ue.1 ue.2) = false) (leaderboard db)) in
  _ ← PLpgSQL.resolve refresh_all_leaderboard_variables (columns t_users) "id";
  _ ← PLpgSQL.resolve refresh_all_leaderboard_variables (columns t_users) "role";
  visible ← visible_rows sess db1 t_users user_row (users db1);
  mret (db1, student_ids visible).

Definition refresh_all_leaderboard (sess : session) (now : timestamptz) (db : database)
    (r : result) : Prop :=
  match clear_leaderboard sess db with
  | inl e => r = Raise e
  | inr (db1, ids) => refresh_each sess now ids db1 r
  end.

Definition refresh_all_leaderboard_run (sess : session) (now : timestamptz) (db : database)
    : result :=
  match clear_leaderboard sess db with
  | inl e => Raise e
  | inr (db1, ids) => refresh_each_run sess now ids db1
  end.

(** ** Triggers *)

Inductive event := INSERT | UPDATE | DELETE.
Inductive timing := BEFORE | AFTER.
Inductive trigger_function := fn_update_leaderboard | fn_update_updated_at_column.
(** [no_when]: no [WHEN] clause; [when_submission_added]:
    [WHEN (OLD.submission_url IS NULL AND NEW.submission_url IS NOT NULL)]. *)
Inductive when_clause := no_when | when_submission_added.

Global Instance event_eq_dec : EqDecision event.
Proof. solve_decision. Defined.
Global Instance timing_eq_dec : EqDecision timing.
Proof. solve_decision. Defined.
Global Instance trigger_function_eq_dec : EqDecision trigger_function.
Proof. solve_decision. Defined.

Record trigger := mk_trigger {
  tg_name : string;
  tg_timing : timing;
  tg_events : list event;
  tg_table : table;
  tg_when : when_clause;
  tg_function : trigger_function }.

(** The [CREATE TRIGGER ... FOR EACH ROW] statements on the tables of the
    model, in firing (name) order. *)
Definition triggers : list trigger :=
  [ mk_trigger "trigger_assignments_updated_at" BEFORE [UPDATE] t_assignments
      no_when fn_update_updated_at_column;
    mk_trigger "trigger_projects_updated_at" BEFORE [UPDATE] t_projects
      no_when fn_update_updated_at_column;
    mk_trigger "trigger_quiz_attempts_updated_at" BEFORE [UPDATE] t_quiz_attempts
      no_when fn_update_updated_at_column;
    mk_trigger "trigger_quizzes_updated_at" BEFORE [UPDATE] t_quizzes
      no_when fn_update_updated_at_column;
    mk_trigger "trigger_update_leaderboard_assignment_submission" AFTER [UPDATE] t_assignments
      when_submission_added fn_update_leaderboard;
    mk_trigger "trigger_update_leaderboard_assignments" AFTER [INSERT; UPDATE] t_assignments
      no_when fn_update_leaderboard;
    mk_trigger "trigger_update_leaderboard_projects" AFTER [INSERT; UPDATE] t_projects
      no_when fn_update_leaderboard;
    mk_trigger "trigger_update_leaderboard_quiz_attempts" AFTER [INSERT; UPDATE] t_quiz_attempts
      no_when fn_update_leaderboard;
    mk_trigger "trigger_users_updated_at" BEFORE [UPDATE] t_users
      no_when fn_update_updated_at_column ].

Inductive row_change :=
| inserted (new : trigger_row)
| updated (old new : trigger_row)
| deleted (old : trigger_row).

Definition event_of (c : row_change) : event :=
  match c with inserted _ => INSERT | updated _ _ => UPDATE | deleted _ => DELETE end.

Definition NEW (c : row_change) : option trigger_row :=
  match c with inserted n | updated _ n => Some n | deleted _ => None end.

Definition OLD (c : row_change) : option trigger_row :=
  match c with inserted _ => None | updated o _ | deleted o => Some o end.

(** The table whose trigger fired for the change. *)
Definition changed_table (c : row_change) : table :=
  match c with inserted r | updated _ r | deleted r => table_of r end.

Definition row_student_id (r : option trigger_row) : option uuid :=
  match r with
  | Some (assignment_row a) => Some (Assignment.student_id a)
  | Some (attempt_row qa) => Some (QuizAttempt.student_id qa)
  | _ => None
  end.

Definition row_owner_id (r : option trigger_row) : option uuid :=
  match r with
  | Some (project_row p) => Some (Project.owner_id p)
  | _ => None
  end.

Definition row_user_id (r : option trigger_row) : option uuid :=
  match r with
  | Some (leaderboard_row user_id _) => Some user_id
  | _ => None
  end.

Definition row_submission_url (r : option trigger_row) : option string :=
  match r with
  | Some (assignment_row a) => Assignment.submission_url a
  | _ => None
  end.

Definition when_holds (w : when_clause) (c : row_change) : bool :=
  match w with
  | no_when => true
  | when_submission_added =>
      SQL.is_null (row_submission_url (OLD c)) && SQL.is_not_null (row_submission_url (NEW c))
  end.

Definition fires (t : table) (tm : timing) (c : row_change) (tg : trigger) : bool :=
  bool_decide (tg_table tg = t) && bool_decide (tg_timing tg = tm)
  && bool_decide (event_of c ∈ tg_events tg) && when_holds (tg_when tg) c.

(** The calls queued by the [AFTER] row triggers for the rows a statement
    changed in table [t]. *)
Definition after_row_calls (t : table) (changes : list row_change)
    : list (trigger_function * row_change) :=
  flat_map (λ c, map (λ tg, (tg_function tg, c)) (List.filter (fires t AFTER c) triggers))
           changes.

(** *** update_leaderboard *)

(** [target_user_id := COALESCE(NEW.student_id, NEW.owner_id, NEW.user_id)]:
    [NEW] has the row type of the table whose trigger fired, and each of the
    three fields must be a column of it before the expression is evaluated. *)
Definition target_user_id (c : row_change) : error + option uuid :=
  _ ← PLpgSQL.field (columns (changed_table c)) "student_id";
  _ ← PLpgSQL.field (columns (changed_table c)) "owner_id";
  _ ← PLpgSQL.field (columns (changed_table c)) "user_id";
  mret (SQL.coalesce [row_student_id (NEW c); row_owner_id (NEW c); row_user_id (NEW c)]).

Definition update_leaderboard (sess : session) (now : timestamptz) (c : row_change)
    (db : database) (r : result) : Prop :=
  match (target ← target_user_id c;
         upsert_points sess update_leaderboard_variables now target db) with
  | inl e => r = Raise e
  | inr db1 =>
      ∃ x, update_ranks sess update_leaderboard_variables db1 x ∧ r = ranked db1 x
  end.

Definition update_leaderboard_run (sess : session) (now : timestamptz) (c : row_change)
    (db : database) : result :=
  match (target ← target_user_id c;
         upsert_points sess update_leaderboard_variables now target db) with
  | inl e => Raise e
  | inr db1 => ranked db1 (update_ranks_run sess update_leaderboard_variables db1)
  end.

(** [update_updated_at_column] sets [NEW.updated_at] of the source row, a
    column the points functions never read and the rows here do not carry. *)
Definition call (sess : session) (now : timestamptz) (fn : trigger_function)
    (c : row_change) (db : database) (r : result) : Prop :=
  match fn with
  | fn_update_leaderboard => update_leaderboard sess now c db r
  | fn_update_updated_at_column => r = Ok db
  end.

Definition call_run (sess : session) (now : timestamptz) (fn : trigger_function)
    (c : row_change) (db : database) : result :=
  match fn with
  | fn_update_leaderboard => update_leaderboard_run sess now c db
  | fn_update_updated_at_column => Ok db
  end.

(** *** Foreign keys *)

(** The rows a row refers to exist ([REFERENCES users(id)],
    [REFERENCES quizzes(id)]). *)
Definition references_hold (db : database) (r : trigger_row) : bool :=
  match r with
  | user_row _ => true
  | project_row p => bool_decide (Project.owner_id p ∈ map User.id (users db))
  | assignment_row a => bool_decide (Assignment.student_id a ∈ map User.id (users db))
  | quiz_row q => bool_decide (Quiz.created_by q ∈ map User.id (users db))
  | attempt_row qa =>
      bool_decide (QuizAttempt.quiz_id qa ∈ map Quiz.id (quizzes db))
      && bool_decide (QuizAttempt.student_id qa ∈ map User.id (users db))
  | leaderboard_row user_id _ => bool_decide (user_id ∈ map User.id (users db))
  end.

Definition foreign_keys (r : trigger_row) : list uuid :=
  match r with
  | user_row _ => []
  | project_row p => [Project.owner_id p]
  | assignment_row a => [Assignment.student_id a]
  | quiz_row q => [Quiz.created_by q]
  | attempt_row qa => [QuizAttempt.quiz_id qa; QuizAttempt.student_id qa]
  | leaderboard_row user_id _ => [user_id]
  end.

(** What runs after a statement for the rows it changed. *)
Inductive after_event :=
| ri_check (new : trigger_row)
| trigger_call (fn : trigger_function) (c : row_change).

(** The check of a foreign key is a trigger of the system on the referencing
    table, for an inserted row and for an updated row whose key changed; its
    name ([RI_ConstraintTrigger_...]) sorts before those of the file. *)
Definition ri_checks (c : row_change) : list after_event :=
  match c with
  | inserted new => match foreign_keys new with [] => [] | _ => [ri_check new] end
  | updated old new =>
      if bool_decide (foreign_keys old = foreign_keys new) then [] else [ri_check new]
  | deleted _ => []
  end.

(** The events queued for the rows a statement changed in table [t], row by
    row. *)
Definition after_events (t : table) (changes : list row_change) : list after_event :=
  flat_map (λ c, ri_checks c
                 ++ map (λ fc, trigger_call fc.1 fc.2) (after_row_calls t [c]))
           changes.

(** The queued events run one after the other at the end of the statement;
    the first condition aborts it. *)
Inductive fire (sess : session) (now : timestamptz)
  : list after_event → database → result → Prop :=
| fire_done db :
    fire sess now [] db (Ok db)
| fire_checked new events db r :
    references_hold db new = true →
    fire sess now events db r →
    fire sess now (ri_check new :: events) db r
| fire_dangling new events db :
    references_hold db new = false →
    fire sess now (ri_check new :: events) db (Raise foreign_key_violation)
| fire_step fn c events db db1 r :
    call sess now fn c db (Ok db1) →
    fire sess now events db1 r →
    fire sess now (trigger_call fn c :: events) db r
| fire_raise fn c events db e :
    call sess now fn c db (Raise e) →
    fire sess now (trigger_call fn c :: events) db (Raise e).

Fixpoint fire_run (sess : session) (now : timestamptz) (events : list after_event)
    (db : database) : result :=
  match events with
  | [] => Ok db
  | ri_check new :: events' =>
      if references_hold db new then fire_run sess now events' db
      else Raise foreign_key_violation
  | trigger_call fn c :: events' =>
      match call_run sess now fn c db with
      | Ok db1 => fire_run sess now events' db1
      | Raise e => Raise e
      end
  end.

(** ** Statements *)

(** A [WHERE] clause: none, or a condition on the columns of the row. *)
Inductive where_clause (A : Type) :=
| every_row
| where_ (cond : A → bool).
Arguments every_row {A}.
Arguments where_ {A} cond.

(** A [SET] clause: new values that are constants of the statement, or
    expressions that read columns of the row. *)
Inductive set_clause (A : Type) :=
| set_values (f : A → A)
| set_expressions (f : A → A).
Arguments set_values {A} f.
Arguments set_expressions {A} f.

Definition matches {A} (wh : where_clause A) (r : A) : bool :=
  match wh with every_row => true | where_ cond => cond r end.

Definition reads_where {A} (wh : where_clause A) : bool :=
  match wh with every_row => false | where_ _ => true end.

Definition apply_set {A} (set : set_clause A) : A → A :=
  match set with set_values f | set_expressions f => f end.

Definition reads_set {A} (set : set_clause A) : bool :=
  match set with set_values _ => false | set_expressions _ => true end.

Inductive statement :=
| insert_project (p : Project.row)
| update_projects (wh : where_clause Project.row) (set : set_clause Project.row)
| delete_projects (wh : where_clause Project.row)
| insert_assignment (a : Assignment.row)
| update_assignments (wh : where_clause Assignment.row) (set : set_clause Assignment.row)
| delete_assignments (wh : where_clause Assignment.row)
| insert_quiz_attempt (qa : QuizAttempt.row)
| update_quiz_attempts (wh : where_clause QuizAttempt.row) (set : set_clause QuizAttempt.row)
| delete_quiz_attempts (wh : where_clause QuizAttempt.row)
(** [DELETE FROM users WHERE id = user_id] *)
| delete_user (user_id : uuid)
(** statements on the [leaderboard] table itself *)
| insert_leaderboard (user_id : uuid) (e : lb_entry)
| update_leaderboard_rows (wh : where_clause (uuid * lb_entry)) (set : set_clause lb_entry)
| delete_leaderboard (wh : where_clause (uuid * lb_entry))
(** [SELECT refresh_user_leaderboard(user_id)] and
    [SELECT refresh_all_leaderboard()] *)
| select_refresh_user_leaderboard (user_id : uuid)
| select_refresh_all_leaderboard.

Definition with_projects (db : database) (l : list Project.row) : database :=
  mk_db (users db) l (assignments db) (quizzes db) (quiz_attempts db) (leaderboard db).
Definition with_assignments (db : database) (l : list Assignment.row) : database :=
  mk_db (users db) (projects db) l (quizzes db) (quiz_attempts db) (leaderboard db).
Definition with_quiz_attempts (db : database) (l : list QuizAttempt.row) : database :=
  mk_db (users db) (projects db) (assignments db) (quizzes db) l (leaderboard db).

Definition update_rows {A} (wh : A → bool) (set : A → A) (tbl : list A) : list A :=
  map (λ r, if wh r then set r else r) tbl.

Definition delete_rows {A} (wh : A → bool) (tbl : list A) : list A :=
  List.filter (λ r, negb (wh r)) tbl.

Definition updates {A} (mk : A → trigger_row) (wh : A → bool) (set : A → A)
    (tbl : list A) : list row_change :=
  map (λ r, updated (mk r) (mk (set r))) (List.filter wh tbl).

Definition deletions {A} (mk : A → trigger_row) (wh : A → bool) (tbl : list A)
    : list row_change :=
  map (λ r, deleted (mk r)) (List.filter wh tbl).

(** [INSERT INTO t VALUES (row)]: the policies check the row, then its
    primary key must be new. *)
Definition insert_into {A} (sess : session) (db : database) (t : table)
    (mk : A → trigger_row) (key : A → uuid) (row : A) (tbl : list A)
    : error + list A * list row_change :=
  check ← row_security sess db cmd_insert false t;
  if negb (check (mk row)) then inl insufficient_privilege
  else if bool_decide (key row ∈ map key tbl) then inl unique_violation
  else mret (tbl ++ [row], [inserted (mk row)]).

(** [UPDATE t SET ... WHERE ...] on the rows the session may update; the
    new version of each must pass the policies too, and the primary keys
    must stay distinct. *)
Definition update_table {A} (sess : session) (db : database) (t : table)
    (mk : A → trigger_row) (key : A → uuid) (wh : where_clause A) (set : set_clause A)
    (tbl : list A) : error + list A * list row_change :=
  reach ← row_security sess db cmd_update (reads_where wh || reads_set set) t;
  let hit := λ r, matches wh r && reach (mk r) in
  let new := update_rows hit (apply_set set) tbl in
  if negb (forallb (λ r, reach (mk (apply_set set r))) (List.filter hit tbl))
  then inl insufficient_privilege
  else if bool_decide (NoDup (map key new)) || bool_decide (map key new = map key tbl)
       then mret (new, updates mk hit (apply_set set) tbl)
       else inl unique_violation.

(** [DELETE FROM t WHERE ...] on the rows the session may delete. *)
Definition delete_from {A} (sess : session) (db : database) (t : table)
    (mk : A → trigger_row) (wh : where_clause A) (tbl : list A)
    : error + list A * list row_change :=
  reach ← row_security sess db cmd_delete (reads_where wh) t;
  let hit := λ r, matches wh r && reach (mk r) in
  mret (delete_rows hit tbl, deletions mk hit tbl).

(** The [ON DELETE CASCADE] of every table that references [users] (and of
    [quiz_attempts] through the quizzes the user created). *)
Definition gone_quiz (user_id : uuid) (q : Quiz.row) : bool :=
  N.eqb (Quiz.created_by q) user_id.

Definition gone_attempt (user_id : uuid) (db : database) (qa : QuizAttempt.row) : bool :=
  N.eqb (QuizAttempt.student_id qa) user_id
  || existsb (λ q, gone_quiz user_id q && N.eqb (Quiz.id q) (QuizAttempt.quiz_id qa))
             (quizzes db).

Definition cascade_delete_user (user_id : uuid) (db : database) : database :=
  mk_db (delete_rows (λ u, N.eqb (User.id u) user_id) (users db))
        (delete_rows (λ p, N.eqb (Project.owner_id p) user_id) (projects db))
        (delete_rows (λ a, N.eqb (Assignment.student_id a) user_id) (assignments db))
        (delete_rows (gone_quiz user_id) (quizzes db))
        (delete_rows (gone_attempt user_id db) (quiz_attempts db))
        (delete user_id (leaderboard db)).

Definition cascade_changes (user_id : uuid) (db : database) : list after_event :=
  after_events t_users (deletions user_row (λ u, N.eqb (User.id u) user_id) (users db))
  ++ after_events t_projects
       (deletions project_row (λ p, N.eqb (Project.owner_id p) user_id) (projects db))
  ++ after_events t_assignments
       (deletions assignment_row (λ a, N.eqb (Assignment.student_id a) user_id)
          (assignments db))
  ++ after_events t_quizzes (deletions quiz_row (gone_quiz user_id) (quizzes db))
  ++ after_events t_quiz_attempts
       (deletions attempt_row (gone_attempt user_id db) (quiz_attempts db))
  ++ after_events t_leaderboard
       (match leaderboard db !! user_id with
        | Some e => [deleted (leaderboard_row user_id e)]
        | None => []
        end).

(** The rows of [leaderboard] a statement reaches: those of its [WHERE]
    clause that the session may touch. *)
Definition reached (reach : trigger_row → bool) (wh : where_clause (uuid * lb_entry))
    (lb : gmap uuid lb_entry) : gmap uuid lb_entry :=
  filter (λ ue, matches wh ue && reach (leaderboard_row ue.1 ue.2) = true) lb.

Definition lb_changes (f : uuid → lb_entry → row_change) (rows : gmap uuid lb_entry)
    : list row_change :=
  map (λ ue, f ue.1 ue.2) (map_to_list rows).

(** What a statement does to the tables before the events queued for its
    rows run, and these events; [inl] when the statement ends before. *)
Definition apply_statement (sess : session) (s : statement) (db : database)
    : error + database * list after_event :=
  match s with
  | insert_project p =>
      '(tbl, changes) ← insert_into sess db t_projects project_row Project.id p (projects db);
      mret (with_projects db tbl, after_events t_projects changes)
  | update_projects wh set =>
      '(tbl, changes) ← update_table sess db t_projects project_row Project.id wh set
                          (projects db);
      mret (with_projects db tbl, after_events t_projects changes)
  | delete_projects wh =>
      '(tbl, changes) ← delete_from sess db t_projects project_row wh (projects db);
      mret (with_projects db tbl, after_events t_projects changes)
  | insert_assignment a =>
      '(tbl, changes) ← insert_into sess db t_assignments assignment_row Assignment.id a
                          (assignments db);
      mret (with_assignments db tbl, after_events t_assignments changes)
  | update_assignments wh set =>
      '(tbl, changes) ← update_table sess db t_assignments assignment_row Assignment.id
                          wh set (assignments db);
      mret (with_assignments db tbl, after_events t_assignments changes)
  | delete_assignments wh =>
      '(tbl, changes) ← delete_from sess db t_assignments assignment_row wh (assignments db);
      mret (with_assignments db tbl, after_events t_assignments changes)
  | insert_quiz_attempt qa =>
      '(tbl, changes) ← insert_into sess db t_quiz_attempts attempt_row QuizAttempt.id qa
                          (quiz_attempts db);
      mret (with_quiz_attempts db tbl, after_events t_quiz_attempts changes)
  | update_quiz_attempts wh set =>
      '(tbl, changes) ← update_table sess db t_quiz_attempts attempt_row QuizAttempt.id
                          wh set (quiz_attempts db);
      mret (with_quiz_attempts db tbl, after_events t_quiz_attempts changes)
  | delete_quiz_attempts wh =>
      '(tbl, changes) ← delete_from sess db t_quiz_attempts attempt_row wh (quiz_attempts db);
      mret (with_quiz_attempts db tbl, after_events t_quiz_attempts changes)
  | delete_user user_id =>
      reach ← row_security sess db cmd_delete true t_users;
      if existsb (λ u, N.eqb (User.id u) user_id && reach (user_row u)) (users db)
      then mret (cascade_delete_user user_id db, cascade_changes user_id db)
      else mret (db, [])
  | insert_leaderboard user_id e =>
      check ← row_security sess db cmd_insert false t_leaderboard;
      if negb (check (leaderboard_row user_id e)) then inl insufficient_privilege
      else match leaderboard db !! user_id with
           | Some _ => inl unique_violation
           | None =>
               mret (with_leaderboard db (<[user_id := e]> (leaderboard db)),
                     after_events t_leaderboard [inserted (leaderboard_row user_id e)])
           end
  | update_leaderboard_rows wh set =>
      reach ← row_security sess db cmd_update (reads_where wh || reads_set set) t_leaderboard;
      let rows := reached reach wh (leaderboard db) in
      if bool_decide (map_Forall (λ user_id e,
                                    reach (leaderboard_row user_id (apply_set set e)) = true)
                                 rows)
      then mret (with_leaderboard db ((apply_set set <$> rows) ∪ leaderboard db),
                 after_events t_leaderboard
                   (lb_changes (λ u e, updated (leaderboard_row u e)
                                               (leaderboard_row u (apply_set set e)))
                      rows))
      else inl insufficient_privilege
  | delete_leaderboard wh =>
      reach ← row_security sess db cmd_delete (reads_where wh) t_leaderboard;
      let rows := reached reach wh (leaderboard db) in
      mret (with_leaderboard db (leaderboard db ∖ rows),
            after_events t_leaderboard (lb_changes (λ u e, deleted (leaderboard_row u e)) rows))
  | select_refresh_user_leaderboard _ | select_refresh_all_leaderboard =>
      mret (db, [])
  end.

(** Running a statement in a session at transaction time [now]. *)
Definition execute (sess : session) (now : timestamptz) (s : statement) (db : database)
    (r : result) : Prop :=
  match s with
  | select_refresh_user_leaderboard user_id => refresh_user_leaderboard sess now user_id db r
  | select_refresh_all_leaderboard => refresh_all_leaderboard sess now db r
  | _ =>
      match apply_statement sess s db with
      | inl e => r = Raise e
      | inr (db1, events) => fire sess now events db1 r
      end
  end.

Definition execute_run (sess : session) (now : timestamptz) (s : statement) (db : database)
    : result :=
  match s with
  | select_refresh_user_leaderboard user_id => refresh_user_leaderboard_run sess now user_id db
  | select_refresh_all_leaderboard => refresh_all_leaderboard_run sess now db
  | _ =>
      match apply_statement sess s db with
      | inl e => Raise e
      | inr (db1, events) => fire_run sess now events db1
      end
  end.

(** A statement of a session that row-level security does not bind. *)
Definition exec (now : timestamptz) (s : statement) (db : database) (r : result) : Prop :=
  execute table_owner now s db r.

Definition exec_run (now : timestamptz) (s : statement) (db : database) : result :=
  execute_run table_owner now s db.

(** A statement of a client. *)
Definition client_exec (uid : option string) (now : timestamptz) (s : statement)
    (db : database) (r : result) : Prop :=
  execute (client uid) now s db r.

Definition client_exec_run (uid : option string) (now : timestamptz) (s : statement)
    (db : database) : result :=
  execute_run (client uid) now s db.

(** ** The quizzes subtotal in the words of the specification

    One point per correctly answered question, over the completed attempts
    of the user; the question at position [i] counts as correct when the
    answer submitted at position [i] is that question's [correctIndex]. *)

Definition submitted_index (answer : jsonb) : option Z :=
  match answer with JNumber n => Some n | _ => None end.

Definition counts_as_correct (answers : list jsonb) (questions : list question) (i : nat) : bool :=
  match answers !! i, questions !! i with
  | Some answer, Some q =>
      match submitted_index answer, correctIndex q with
      | Some m, Some n => Z.eqb m n
      | _, _ => false
      end
  | _, _ => false
  end.

Definition attempt_score (answers : list jsonb) (questions : list question) : Z :=
  Z.of_nat (length (List.filter (counts_as_correct answers questions)
                                (seq 0 (length questions)))).

Definition quiz_of (db : database) (qa : QuizAttempt.row) : option Quiz.row :=
  find (λ q, N.eqb (QuizAttempt.quiz_id qa) (Quiz.id q)) (quizzes db).

Definition completed_score (db : database) (qa : QuizAttempt.row) : Z :=
  match QuizAttempt.completed_at qa, quiz_of db qa with
  | Some _, Some q => attempt_score (QuizAttempt.answers qa) (Quiz.questions q)
  | _, _ => 0%Z
  end.

Definition spec_quiz_points (user_id : uuid) (db : database) : Z :=
  foldr Z.add 0%Z
    (map (completed_score db)
       (List.filter (λ qa, N.eqb (QuizAttempt.student_id qa) user_id) (quiz_attempts db))).

(** ** The records of a user, in the words of the specification *)

Definition attempts_of (user_id : uuid) (db : database) : list QuizAttempt.row :=
  List.filter (λ qa, N.eqb (QuizAttempt.student_id qa) user_id) (quiz_attempts db).

Definition assignments_of (user_id : uuid) (db : database) : list Assignment.row :=
  List.filter (λ a, N.eqb (Assignment.student_id a) user_id) (assignments db).

Definition projects_of (user_id : uuid) (db : database) : list Project.row :=
  List.filter (λ p, N.eqb (Project.owner_id p) user_id) (projects db).

(** An assignment with a non-null submission reference. *)
Definition is_submitted (a : Assignment.row) : bool :=
  SQL.is_not_null (Assignment.submission_url a).

Definition is_verified (p : Project.row) : bool :=
  match Project.verified p with Some true => true | _ => false end.

(** A project tagged "challenge". *)
Definition tagged_challenge (p : Project.row) : bool :=
  match Project.tags p with
  | Some l => existsb (λ t, match t with Some s => String.eqb "challenge" s | None => false end) l
  | None => false
  end.

Definition verified_projects (user_id : uuid) (db : database) : list Project.row :=
  List.filter (λ p, is_verified p && negb (tagged_challenge p)) (projects_of user_id db).

Definition verified_challenges (user_id : uuid) (db : database) : list Project.row :=
  List.filter (λ p, is_verified p && tagged_challenge p) (projects_of user_id db).

(** A row whose total is the sum of its breakdown, with no negative part. *)
Definition sums_up (e : lb_entry) : Prop :=
  total_points e
  = (quizzes_pts (breakdown_of e) + assignments_pts (breakdown_of e)
     + projects_pts (breakdown_of e) + challenges_pts (breakdown_of e))%Z
  ∧ (0 ≤ quizzes_pts (breakdown_of e))%Z
  ∧ (0 ≤ assignments_pts (breakdown_of e))%Z
  ∧ (0 ≤ projects_pts (breakdown_of e))%Z
  ∧ (0 ≤ challenges_pts (breakdown_of e))%Z.

(** ** Kinds of statements *)

(** An [INSERT] or [UPDATE] on [projects], [assignments] or [quiz_attempts]. *)
Definition source_write (s : statement) : bool :=
  match s with
  | insert_project _ | update_projects _ _
  | insert_assignment _ | update_assignments _ _
  | insert_quiz_attempt _ | update_quiz_attempts _ _ => true
  | _ => false
  end.

(** An [INSERT] on one of the three. *)
Definition source_insert (s : statement) : bool :=
  match s with
  | insert_project _ | insert_assignment _ | insert_quiz_attempt _ => true
  | _ => false
  end.

(** A [DELETE] on [projects], [assignments] or [quiz_attempts]. *)
Definition source_delete (s : statement) : bool :=
  match s with
  | delete_projects _ | delete_assignments _ | delete_quiz_attempts _ => true
  | _ => false
  end.

(** A statement sent to the [leaderboard] table itself. *)
Definition leaderboard_write (s : statement) : bool :=
  match s with
  | insert_leaderboard _ _ | update_leaderboard_rows _ _ | delete_leaderboard _ => true
  | _ => false
  end.

(** A statement that reads a column of its table. *)
Definition reads_columns (s : statement) : bool :=
  match s with
  | update_projects wh set => reads_where wh || reads_set set
  | update_assignments wh set => reads_where wh || reads_set set
  | update_quiz_attempts wh set => reads_where wh || reads_set set
  | update_leaderboard_rows wh set => reads_where wh || reads_set set
  | delete_projects wh => reads_where wh
  | delete_assignments wh => reads_where wh
  | delete_quiz_attempts wh => reads_where wh
  | delete_leaderboard wh => reads_where wh
  | delete_user _ => true
  | _ => false
  end.

(** The rows an [INSERT] or [UPDATE] on a source table writes when no
    policy stands in its way, as the triggers see them. *)
Definition written_rows (s : statement) (db : database) : list trigger_row :=
  match s with
  | insert_project p => [project_row p]
  | update_projects wh set =>
      map (λ p, project_row (apply_set set p)) (List.filter (matches wh) (projects db))
  | insert_assignment a => [assignment_row a]
  | update_assignments wh set =>
      map (λ a, assignment_row (apply_set set a)) (List.filter (matches wh) (assignments db))
  | insert_quiz_attempt qa => [attempt_row qa]
  | update_quiz_attempts wh set =>
      map (λ qa, attempt_row (apply_set set qa)) (List.filter (matches wh) (quiz_attempts db))
  | _ => []
  end.

(** The tables right after the statement of an exempt session, before any
    queued event has run. *)
Definition after_write (s : statement) (db : database) : database :=
  match apply_statement table_owner s db with
  | inr (db1, _) => db1
  | inl _ => db
  end.

(** Primary keys are distinct and every reference has its row. *)
Definition consistent (db : database) : Prop :=
  NoDup (map User.id (users db))
  ∧ NoDup (map Project.id (projects db))
  ∧ NoDup (map Assignment.id (assignments db))
  ∧ NoDup (map Quiz.id (quizzes db))
  ∧ NoDup (map QuizAttempt.id (quiz_attempts db))
  ∧ (∀ p, p ∈ projects db → references_hold db (project_row p) = true)
  ∧ (∀ a, a ∈ assignments db → references_hold db (assignment_row a) = true)
  ∧ (∀ q, q ∈ quizzes db → references_hold db (quiz_row q) = true)
  ∧ (∀ qa, qa ∈ quiz_attempts db → references_hold db (attempt_row qa) = true)
  ∧ (∀ u e, leaderboard db !! u = Some e → references_hold db (leaderboard_row u e) = true).

(** ** Example data *)

Definition ten_questions : list question :=
  map (λ i, mk_question "q" ["a"; "b"; "c"; "d"] (Some i) "")
      [0; 1; 2; 3; 0; 1; 2; 3; 0; 1]%Z.

(** Ten answers, the last two wrong. *)
Definition eight_right : list jsonb :=
  map JNumber [0; 1; 2; 3; 0; 1; 2; 3; 3; 3]%Z.

(** User 1 is a student with one completed attempt (8 of 10), one submitted
    assignment and one verified project; user 2 is a mentor who wrote the
    quiz. *)
Definition example_db : database :=
  mk_db [User.mk 1 "auth-1" student; User.mk 2 "auth-2" mentor]
        [Project.mk 10 1 (Some [Some "web"]) (Some true)]
        [Assignment.mk 20 1 (Some "submissions/1.pdf")]
        [Quiz.mk 30 2 ten_questions]
        [QuizAttempt.mk 40 30 1 eight_right (Some 5%Z)]
        ∅.

(** User 1 owns a single verified project tagged "challenge". *)
Definition challenge_db : database :=
  mk_db [User.mk 1 "auth-1" student]
        [Project.mk 10 1 (Some [Some "challenge"]) (Some true)]
        [] [] [] ∅.

(** User 2 is a mentor who owns a verified project; a row for user 2 was
    loaded into the leaderboard. There is no student. *)
Definition mentor_db : database :=
  mk_db [User.mk 2 "auth-2" mentor]
        [Project.mk 10 2 (Some []) (Some true)]
        [] [] []
        {[ 2%N := mk_entry 100 (mk_breakdown 0 0 100 0) (Some 1%Z) 3%Z ]}.

(** Four students with 3, 2, 2 and 1 verified projects, and rows with the
    totals 300, 200, 200 and 100 loaded into the leaderboard without
    ranks. *)
Definition tied_db : database :=
  mk_db [User.mk 1 "auth-1" student; User.mk 2 "auth-2" student;
         User.mk 3 "auth-3" student; User.mk 4 "auth-4" student]
        (map (λ '(i, o), Project.mk i o (Some []) (Some true))
             [(10, 1); (11, 1); (12, 1); (13, 2); (14, 2); (15, 3); (16, 3); (17, 4)]%N)
        [] [] []
        (list_to_map
           (map (λ '(u, t), (u, mk_entry t (mk_breakdown 0 0 t 0) None 0%Z))
                [(1%N, 300%Z); (2%N, 200%Z); (3%N, 200%Z); (4%N, 100%Z)])).

(** [example_db] with a row for user 1 loaded into the leaderboard. *)
Definition loaded_db : database :=
  with_leaderboard example_db
    {[ 1%N := mk_entry 128 (mk_breakdown 8 20 100 0) (Some 1%Z) 3%Z ]}.


(** [UPDATE] or [DELETE] on [assignments] or [quiz_attempts], [DELETE] on
    [projects]: commands for which these tables have no policy. *)
Definition without_policy (s : statement) : bool :=
  match s with
  | update_assignments _ _ | delete_assignments _
  | update_quiz_attempts _ _ | delete_quiz_attempts _
  | delete_projects _ => true
  | _ => false
  end.

(** The row an [INSERT] on a source table proposes, and whether its primary
    key is taken. *)
Definition proposed_row (s : statement) : option trigger_row :=
  match s with
  | insert_project p => Some (project_row p)
  | insert_assignment a => Some (assignment_row a)
  | insert_quiz_attempt qa => Some (attempt_row qa)
  | _ => None
  end.

Definition key_taken (s : statement) (db : database) : bool :=
  match s with
  | insert_project p => bool_decide (Project.id p ∈ map Project.id (projects db))
  | insert_assignment a => bool_decide (Assignment.id a ∈ map Assignment.id (assignments db))
  | insert_quiz_attempt qa =>
      bool_decide (QuizAttempt.id qa ∈ map QuizAttempt.id (quiz_attempts db))
  | _ => false
  end.

(** ** The AI call wrapper *)

Module AI.

(** Modelled from the spec: the wrapper [callAI] and the grading caller
    live in [src/lib/geminiClient.js] and [src/lib/api.js], which are not
    among the sources; only their documentation is. What follows puts
    sections 4.2, 6 and 7 of the specification into definitions: what the
    provider answers to one request. *)
Inductive response :=
| timed_out
| responded (status : nat) (body : string).

(** Modelled from the spec: the three kinds of failed attempt (timeout,
    non-2xx response, malformed payload). *)
Inductive failure :=
| timeout
| non_2xx (status : nat)
| malformed_payload.

(** Modelled from the spec: what the caller of [callAI] receives, the
    raw response text or a typed failure that tells the kind of the last
    failed attempt and how many attempts were made. *)
Inductive call_result :=
| ai_ok (body : string)
| ai_failure (last : failure) (attempts : nat).

(** Modelled from the spec: the result of a call with the attempts made
    and the pauses taken between them. *)
Record report := mk_report {
  result_of : call_result;
  attempts_made : nat;
  backoffs : list Z }.

(** Modelled from the spec: the result shape of grading,
    [{attempt, aiGrading?, basicScore, correctAnswers, totalQuestions}],
    without the stored attempt. *)
Record grading := mk_grading {
  aiGrading : option string;
  basicScore : nat;
  correctAnswers : nat;
  totalQuestions : nat }.

Section wrapper.

(** Modelled from the spec: the first pause and the growth factor of the
    exponential backoff, and the validation of a response body (it
    parses as JSON and has the expected shape); the specification fixes
    none of the three. *)
Variables (base factor : Z) (well_formed : string → bool).

(** Modelled from the spec: "retry up to 3 total attempts". *)
Definition max_attempts : nat := 3.

(** Modelled from the spec: an attempt fails on a timeout, on a status
    outside 200..299, or on a body that does not validate. *)
Definition classify (r : response) : failure + string :=
  match r with
  | timed_out => inl timeout
  | responded status body =>
      if (200 <=? status) && (status <? 300)
      then if well_formed body then inr body else inl malformed_payload
      else inl (non_2xx status)
  end.

(** Modelled from the spec: the pause after the [n]-th failed attempt,
    growing by [factor] each time. *)
Definition backoff (n : nat) : Z := (base * factor ^ Z.of_nat (n - 1))%Z.

(** Modelled from the spec: the retry loop; [provider k] is the answer
    to request number [k], [made] counts the attempts already made and
    [left] the ones still allowed. *)
Fixpoint retry (provider : nat → response) (made left : nat) (waited : list Z) : report :=
  match left with
  | 0 => mk_report (ai_failure timeout made) made waited
  | S left' =>
      match classify (provider made) with
      | inr body => mk_report (ai_ok body) (S made) waited
      | inl f =>
          match left' with
          | 0 => mk_report (ai_failure f (S made)) (S made) waited
          | S _ => retry provider (S made) left' (waited ++ [backoff (S made)])
          end
      end
  end.

(** Modelled from the spec: [callAI(prompt, options)] against a provider. *)
Definition callAI (provider : nat → response) : report :=
  retry provider 0 max_attempts [].

(** Modelled from the spec: the deterministic score, "pure equality of
    submitted vs. correct indices". *)
Definition basic_score (userAnswers : list Z) (questions : list question) : nat :=
  length (List.filter (λ aq : Z * question,
                         match correctIndex aq.2 with
                         | Some n => Z.eqb aq.1 n
                         | None => false
                         end)
                      (zip userAnswers questions)).

(** Modelled from the spec: grading asks the AI for feedback and falls
    back to the basic score alone when the call fails; [aiGrading] is
    present only when the AI path succeeded. *)
Definition gradeQuizAnswers (provider : nat → response) (userAnswers : list Z)
    (questions : list question) : grading :=
  let basic := basic_score userAnswers questions in
  match result_of (callAI provider) with
  | ai_ok body => mk_grading (Some body) basic basic (length questions)
  | ai_failure _ _ => mk_grading None basic basic (length questions)
  end.

End wrapper.

(** A provider that fails in the three ways, one after the other. *)
Definition fails_three_ways : nat → response :=
  λ k, match k with
       | 0 => timed_out
       | 1 => responded 503 "unavailable"
       | _ => responded 200 "not json"
       end.

End AI.

(** ** The Gemini proxy and its client ([DEPLOYMENT.md])

    The edge function [supabase/functions/gemini-proxy/index.ts] and the
    client function [callGeminiSecure]. JavaScript values are JSON values
    plus [undefined]; the numbers are a parameter, with the test that [!] and
    [||] apply to them (0 and NaN are falsy). Each function returns what it
    answers together with the requests it sent. *)

Module Edge.

(** What the model leaves to the JavaScript engine and to HTTP: the numbers,
    with the test of [!] and [||] on them (0 and NaN are falsy) and the test
    that [JSON.stringify] writes them as numbers (NaN and the infinities are
    not finite); the literals [0.7], [40], [0.95] and [1024]; the
    messages of the exceptions for a body that is not JSON and for a property
    read of [null]; the status text the client sees for a status. *)
Class engine := mk_engine {
  number : Type;
  falsy_number : number → bool;
  finite : number → bool;
  n_0_7 : number;
  n_40 : number;
  n_0_95 : number;
  n_1024 : number;
  json_message : string;
  null_message : string;
  statusText : nat → string }.

Section proxy.

Context `{engine}.

#[warnings="-register-all"]
Inductive value :=
| undefined
| null
| boolean (b : bool)
| num (n : number)
| str (s : string)
| arr (items : list value)
| obj (fields : list (string * value)).

Definition truthy (v : value) : bool :=
  match v with
  | undefined | null => false
  | boolean b => b
  | num n => negb (falsy_number n)
  | str s => negb (String.eqb s "")
  | arr _ | obj _ => true
  end.

(** [JSON.parse (JSON.stringify v)] for a [v] other than [undefined]: a
    property whose value is [undefined] is left out, [undefined] in an array
    and a number that is not finite become [null]. *)
Fixpoint to_json (v : value) : value :=
  match v with
  | num n => if finite n then num n else null
  | arr items =>
      arr (map (λ item, match item with undefined => null | _ => to_json item end) items)
  | obj fields =>
      obj (flat_map (λ kv, match kv with
                           | (_, undefined) => []
                           | (k, v) => [(k, to_json v)]
                           end) fields)
  | _ => v
  end.

(** A default [= {}], of a parameter or in a destructuring pattern. *)
Definition default_object (v : value) : value :=
  match v with undefined => obj [] | _ => v end.

(** [a || d] *)
Definition or_else (a d : value) : value := if truthy a then a else d.

(** An exception, with its [message]. *)
Inductive exn :=
| SyntaxError (message : string)
| TypeError (message : string)
| Error (message : string).

Definition message_of (x : exn) : string :=
  match x with SyntaxError m | TypeError m | Error m => m end.

Fixpoint lookup_field (k : string) (fields : list (string * value)) : value :=
  match fields with
  | [] => undefined
  | (k', v) :: rest => if String.eqb k k' then v else lookup_field k rest
  end.

(** [v.k] for the keys read here, none of which a string, an array, a number
    or a boolean has. *)
Definition get (v : value) (k : string) : exn + value :=
  match v with
  | undefined | null => inl (TypeError null_message)
  | obj fields => inr (lookup_field k fields)
  | _ => inr undefined
  end.

(** [const { prompt, options = {} } = v] *)
Definition destructure (v : value) : exn + value * value :=
  match get v "prompt", get v "options" with
  | inr prompt, inr options =>
      inr (prompt, default_object options)
  | inl x, _ | _, inl x => inl x
  end.

Record request := mk_request {
  method : string;
  authorization : option string;   (** [req.headers.get('Authorization')] *)
  json : option value }.           (** [await req.json()], none when it throws *)

Record gemini_request := mk_gemini_request {
  text : value;
  temperature : value;
  topK : value;
  topP : value;
  maxOutputTokens : value;
  safetySettings : list (string * string) }.

Record gemini_response := mk_gemini_response {
  gemini_status : nat;
  gemini_json : option value }.    (** [await response.json()] *)

(** [supabaseClient.auth.getUser()] for an authorization header, as
    [(user, error)], and [fetch] to the Gemini endpoint; [gemini_json] is a
    parsed body, which [JSON.stringify] writes back as it is. *)
Record services := mk_services {
  getUser : string → option string * option string;
  fetch : gemini_request → exn + gemini_response }.

Inductive body :=
| text_body (s : string)
| json_body (v : value).

Record response := mk_response {
  status : nat;
  cors : bool;                     (** the two [corsHeaders] are set *)
  body_of : body }.

Definition safety_settings : list (string * string) :=
  [ ("HARM_CATEGORY_HARASSMENT", "BLOCK_MEDIUM_AND_ABOVE");
    ("HARM_CATEGORY_HATE_SPEECH", "BLOCK_MEDIUM_AND_ABOVE");
    ("HARM_CATEGORY_SEXUALLY_EXPLICIT", "BLOCK_MEDIUM_AND_ABOVE");
    ("HARM_CATEGORY_DANGEROUS_CONTENT", "BLOCK_MEDIUM_AND_ABOVE") ].

(** The body of the request to Gemini. *)
Definition gemini_body (prompt options : value) : exn + gemini_request :=
  match get options "temperature", get options "topK",
        get options "topP", get options "maxOutputTokens" with
  | inr t, inr k, inr p, inr m =>
      inr (mk_gemini_request prompt
             (or_else t (num n_0_7)) (or_else k (num n_40))
             (or_else p (num n_0_95)) (or_else m (num n_1024))
             safety_settings)
  | inl x, _, _, _ | _, inl x, _, _ | _, _, inl x, _ | _, _, _, inl x => inl x
  end.

(** The caller sent an authorization header that [getUser] accepts. *)
Definition authenticated (sv : services) (req : request) : bool :=
  match authorization req with
  | None => false
  | Some authHeader =>
      negb (String.eqb authHeader "") &&
      match getUser sv authHeader with
      | (Some _, None) => true
      | _ => false
      end
  end.

Definition unauthorized : response := mk_response 401 true (text_body "Unauthorized").

(** The [try] block: the requests sent to Gemini, and the response or the
    exception thrown. *)
Definition try_block (sv : services) (req : request)
    : list gemini_request * (exn + response) :=
  match json req with
  | None => ([], inl (SyntaxError json_message))
  | Some v =>
      match destructure v with
      | inl x => ([], inl x)
      | inr (prompt, options) =>
          match authorization req with
          | None => ([], inr unauthorized)
          | Some authHeader =>
              if String.eqb authHeader "" then ([], inr unauthorized)
              else
                match getUser sv authHeader with
                | (Some user, None) =>
                    match gemini_body prompt options with
                    | inl x => ([], inl x)
                    | inr greq =>
                        match fetch sv greq with
                        | inl x => ([greq], inl x)
                        | inr gres =>
                            match gemini_json gres with
                            | None => ([greq], inl (SyntaxError json_message))
                            | Some data =>
                                ([greq], inr (mk_response 200 true (json_body data)))
                            end
                        end
                    end
                | _ => ([], inr unauthorized)
                end
          end
      end
  end.

(** The handler given to [serve]. *)
Definition serve (sv : services) (req : request) : list gemini_request * response :=
  if String.eqb (method req) "OPTIONS"
  then ([], mk_response 200 true (text_body "ok"))
  else
    match try_block sv req with
    | (sent, inr r) => (sent, r)
    | (sent, inl x) =>
        (sent, mk_response 500 true (json_body (obj [("error", str (message_of x))])))
    end.

(** [response.ok] *)
Definition ok (r : response) : bool := (200 <=? status r) && (status r <? 300).

(** [await response.json()] on a response of the proxy. *)
Definition response_json (r : response) : exn + value :=
  match body_of r with
  | json_body v => inr v
  | text_body _ => inl (SyntaxError json_message)
  end.

(** [callGeminiSecure(prompt, opts = {})] with the session of
    [supabase.auth.getSession()] (its access token, if any) and a proxy to
    send the request to: the requests sent to the proxy, and the value
    returned or the exception thrown. *)
Definition callGeminiSecure (session : option string) (proxy : request → response)
    (prompt opts : value) : list request * (exn + value) :=
  let opts := default_object opts in
  match session with
  | None => ([], inl (Error "Authentication required"))
  | Some access_token =>
      let req := mk_request "POST" (Some (String.append "Bearer " access_token))
                   (Some (to_json (obj [("prompt", prompt); ("options", opts)]))) in
      let response := proxy req in
      if ok response then ([req], response_json response)
      else ([req], inl (Error (String.append "Edge function error: "
                                         (statusText (status response)))))
  end.

End proxy.

(** Decimal numbers [m × 10^e], all finite. *)
Definition decimals : engine :=
  mk_engine (Z * Z) (λ n, (n.1 =? 0)%Z) (λ _, true)
    (7, -1)%Z (40, 0)%Z (95, -2)%Z (1024, 0)%Z
    "Unexpected end of JSON input" "Cannot read properties of null"
    (λ status, if (status =? 401)%nat then "Unauthorized" else "Internal Server Error").


#[local] Existing Instance decimals.

(** An example: the caller with token [token-1] is user [u1], Gemini answers
    429 with a JSON body, and the request asks for temperature 0. *)
Definition example_error : value :=
  obj [("error", obj [("code", num (429, 0)%Z)])].

Definition example_gemini_response : gemini_response :=
  mk_gemini_response 429 (Some example_error).

Definition example_services : services :=
  mk_services
    (λ authHeader, if String.eqb authHeader "Bearer token-1"
                   then (Some "u1", None) else (None, Some "invalid JWT"))
    (λ _, inr example_gemini_response).

Definition example_body : value :=
  obj [("prompt", str "hello"); ("options", obj [("temperature", num (0, 0)%Z)])].

Definition example_request : request :=
  mk_request "POST" (Some "Bearer token-1") (Some example_body).

Definition example_gemini_request : gemini_request :=
  mk_gemini_request (str "hello")
    (num (7, -1)%Z) (num (40, 0)%Z) (num (95, -2)%Z) (num (1024, 0)%Z)
    safety_settings.

End Edge.

(** * Properties *)

(** ** Lists *)

Lemma filter_andb {A} (f g : A → bool) (l : list A) :
  List.filter (λ x, f x && g x) l = List.filter g (List.filter f l).
Proof.
  induction l as [|x l IH]; simpl; [done|].
  destruct (f x); simpl; [destruct (g x)|]; by rewrite IH.
Qed.

Lemma filter_ext_bool {A} (f g : A → bool) (l : list A) :
  (∀ x, f x = g x) → List.filter f l = List.filter g l.
Proof. intros H. induction l as [|x l IH]; simpl; [done|]. by rewrite H, IH. Qed.

Lemma filter_all {A} (f : A → bool) (l : list A) :
  (∀ x, f x = true) → List.filter f l = l.
Proof. intros H. induction l as [|x l IH]; simpl; [done|]. by rewrite H, IH. Qed.

Lemma length_filter_split {A} (f g : A → bool) (l : list A) :
  length (List.filter f l)
  = length (List.filter (λ x, f x && negb (g x)) l) + length (List.filter (λ x, f x && g x) l).
Proof.
  induction l as [|x l IH]; simpl; [done|].
  destruct (f x), (g x); simpl; lia.
Qed.

Lemma update_rows_none {A} (wh : A → bool) (set : A → A) (tbl : list A) :
  List.filter wh tbl = [] → update_rows wh set tbl = tbl.
Proof.
  unfold update_rows. induction tbl as [|r tbl IH]; simpl; [done|].
  destruct (wh r); [done|]. intros H. by rewrite IH.
Qed.

Lemma delete_rows_none {A} (wh : A → bool) (tbl : list A) :
  (∀ r, wh r = false) → delete_rows wh tbl = tbl.
Proof. intros H. unfold delete_rows. apply filter_all. intros r. by rewrite H. Qed.

(** ** The analysis of the queries *)

(** Resolves the names of the query in the goal. *)
Ltac resolve_names :=
  repeat match goal with
         | |- context [PLpgSQL.resolve ?v ?c ?n] =>
             let r := eval vm_compute in (PLpgSQL.resolve v c n) in
             change (PLpgSQL.resolve v c n) with r
         end.

(** No operator [=] takes a [jsonb] and an [integer]. *)
Lemma calculate_quiz_points_raises sess student_id db :
  calculate_quiz_points sess student_id db = inl undefined_function.
Proof. reflexivity. Qed.

(** [student_id] is a column of [assignments] and the parameter. *)
Lemma calculate_assignment_points_raises sess student_id db :
  calculate_assignment_points sess student_id db = inl ambiguous_column.
Proof. by vm_compute. Qed.

Lemma upsert_points_raises sess variables now user_id db :
  upsert_points sess variables now user_id db = inl undefined_function.
Proof. reflexivity. Qed.

(** No table has the three columns [student_id], [owner_id] and [user_id]. *)
Lemma target_user_id_raises c : target_user_id c = inl undefined_column.
Proof. destruct c as [[]|o []|[]]; reflexivity. Qed.

Lemma rank_statement_trigger sess db :
  rank_statement sess update_leaderboard_variables db = inl ambiguous_column.
Proof. by vm_compute. Qed.

Lemma rank_statement_refresh sess db :
  rank_statement sess refresh_user_leaderboard_variables db = inl ambiguous_column.
Proof. by vm_compute. Qed.

(** ** The functions *)

Lemma update_leaderboard_raises sess now c db r :
  update_leaderboard sess now c db r ↔ r = Raise undefined_column.
Proof. unfold update_leaderboard. by rewrite target_user_id_raises. Qed.

Lemma update_leaderboard_run_raises sess now c db :
  update_leaderboard_run sess now c db = Raise undefined_column.
Proof. unfold update_leaderboard_run. by rewrite target_user_id_raises. Qed.

Lemma refresh_user_leaderboard_raises sess now user_id db r :
  refresh_user_leaderboard sess now user_id db r ↔ r = Raise undefined_function.
Proof. unfold refresh_user_leaderboard. by rewrite upsert_points_raises. Qed.

Lemma refresh_user_leaderboard_run_raises sess now user_id db :
  refresh_user_leaderboard_run sess now user_id db = Raise undefined_function.
Proof. unfold refresh_user_leaderboard_run. by rewrite upsert_points_raises. Qed.

Lemma call_iff sess now fn c db r :
  call sess now fn c db r ↔ r = call_run sess now fn c db.
Proof.
  destruct fn; simpl; [|done].
  by rewrite update_leaderboard_raises, update_leaderboard_run_raises.
Qed.

Lemma fire_iff sess now events db r :
  fire sess now events db r ↔ r = fire_run sess now events db.
Proof.
  split.
  - induction 1 as [db|new events db r Hn _ IH|new events db Hn
                    |fn c events db db1 r Hc _ IH|fn c events db e Hc]; simpl.
    + done.
    + by rewrite Hn.
    + by rewrite Hn.
    + apply call_iff in Hc. by rewrite <- Hc.
    + apply call_iff in Hc. by rewrite <- Hc.
  - intros ->. revert db. induction events as [|[new|fn c] events IH]; intros db; simpl.
    + constructor.
    + destruct (references_hold db new) eqn:Hn.
      * by apply fire_checked.
      * by apply fire_dangling.
    + destruct (call_run sess now fn c db) as [db1|e] eqn:Hc.
      * eapply fire_step; [by apply call_iff|apply IH].
      * apply fire_raise. by apply call_iff.
Qed.

Lemma refresh_each_iff sess now ids db r :
  refresh_each sess now ids db r ↔ r = refresh_each_run sess now ids db.
Proof.
  destruct ids as [|user_id ids]; cbn [refresh_each_run].
  - split; [by inversion 1|intros ->; constructor].
  - rewrite refresh_user_leaderboard_run_raises. split.
    + inversion 1 as [|???? r' Hr|???? Hr]; subst;
        apply refresh_user_leaderboard_raises in Hr; congruence.
    + intros ->. apply refresh_each_raise. by apply refresh_user_leaderboard_raises.
Qed.

Lemma refresh_all_leaderboard_iff sess now db r :
  refresh_all_leaderboard sess now db r ↔ r = refresh_all_leaderboard_run sess now db.
Proof.
  unfold refresh_all_leaderboard, refresh_all_leaderboard_run.
  destruct (clear_leaderboard sess db) as [e|[db1 ids]]; [done|]. apply refresh_each_iff.
Qed.

(** Every statement has one outcome: the rank statement, the only place
    where an order is left open, is never run. *)
Lemma execute_iff sess now s db r :
  execute sess now s db r ↔ r = execute_run sess now s db.
Proof.
  destruct s; unfold execute, execute_run; cbn beta iota;
    try (destruct (apply_statement _ _ _) as [err|[db1 events]]; [done|apply fire_iff]).
  - by rewrite refresh_user_leaderboard_raises, refresh_user_leaderboard_run_raises.
  - apply refresh_all_leaderboard_iff.
Qed.

Lemma execute_run_sound sess now s db : execute sess now s db (execute_run sess now s db).
Proof. by apply execute_iff. Qed.

Lemma exec_run_sound now s db : exec now s db (exec_run now s db).
Proof. apply execute_run_sound. Qed.

Lemma client_exec_run_sound uid now s db :
  client_exec uid now s db (client_exec_run uid now s db).
Proof. apply execute_run_sound. Qed.

(** ** Row-level security *)

(** A policy with a sub-select on [users] cannot be expanded: the policy
    "Admins can view all users" reads [users] again. *)
Lemma quals_reads_users uid db cmd t :
  existsb pol_reads_users (applicable cmd t) = true →
  quals depth [] uid db cmd t = inl invalid_object_definition.
Proof. destruct cmd, t; intros H; try (by vm_compute in H); reflexivity. Qed.

(** A table without a policy for the command lets no row through. *)
Lemma quals_no_policy uid db cmd t :
  applicable cmd t = [] → quals depth [] uid db cmd t = inr (λ _, false).
Proof. intros H. unfold depth. cbn [quals]. by rewrite H. Qed.

Lemma row_security_reads_users uid db cmd reads t :
  existsb pol_reads_users (applicable cmd t) = true →
  row_security (client uid) db cmd reads t = inl invalid_object_definition.
Proof. intros H. unfold row_security. by rewrite (quals_reads_users uid db cmd t H). Qed.

(** The [SELECT] policies come with a statement that reads a column. *)
Lemma row_security_reading uid db cmd t :
  cmd = cmd_update ∨ cmd = cmd_delete →
  applicable cmd t = [] →
  existsb pol_reads_users (applicable cmd_select t) = true →
  row_security (client uid) db cmd true t = inl invalid_object_definition.
Proof.
  intros Hc Hn Hs. unfold row_security. rewrite (quals_no_policy uid db cmd t Hn).
  cbn [mbind error_bind]. replace (true && bool_decide (cmd ∈ [cmd_update; cmd_delete])) with true.
  - by rewrite (quals_reads_users uid db cmd_select t Hs).
  - symmetry. apply bool_decide_eq_true. destruct Hc as [->| ->]; set_solver.
Qed.

Lemma row_security_not_reading uid db cmd t :
  applicable cmd t = [] →
  row_security (client uid) db cmd false t = inr (λ _, false).
Proof. intros Hn. unfold row_security. by rewrite (quals_no_policy uid db cmd t Hn). Qed.

(** The policies of [leaderboard] for a client: every row may be read, none
    written. *)
Lemma row_security_leaderboard uid db cmd reads :
  ∃ q, row_security (client uid) db cmd reads t_leaderboard = inr q
       ∧ ∀ row, q row = bool_decide (cmd = cmd_select).
Proof. destruct cmd, reads; eexists; (split; [reflexivity|done]). Qed.

(** ** Triggers and the events after a statement *)

Lemma after_row_calls_leaderboard changes : after_row_calls t_leaderboard changes = [].
Proof. induction changes as [|c changes IH]; [done|]. unfold after_row_calls in *. simpl. exact IH. Qed.

(** No trigger is declared for [DELETE]. *)
Lemma after_row_calls_deleted t changes :
  Forall (λ c, event_of c = DELETE) changes → after_row_calls t changes = [].
Proof.
  induction 1 as [|c changes Hc _ IH]; [done|].
  unfold after_row_calls in *. cbn [flat_map]. rewrite IH, app_nil_r.
  unfold fires. rewrite Hc. by destruct t.
Qed.

Lemma deletions_deleted {A} (mk : A → trigger_row) wh (tbl : list A) :
  Forall (λ c, event_of c = DELETE) (deletions mk wh tbl).
Proof.
  unfold deletions. apply Forall_forall. intros c Hc.
  apply list_elem_of_fmap in Hc as (r & -> & _). done.
Qed.

Lemma after_events_deleted t changes :
  Forall (λ c, event_of c = DELETE) changes → after_events t changes = [].
Proof.
  induction 1 as [|c changes Hc Hall IH]; [done|].
  unfold after_events in *. cbn [flat_map]. rewrite IH, app_nil_r.
  rewrite (after_row_calls_deleted t [c]) by (by constructor).
  by destruct c.
Qed.

Lemma cascade_changes_nil u db : cascade_changes u db = [].
Proof.
  unfold cascade_changes.
  rewrite !after_events_deleted by apply deletions_deleted.
  rewrite after_events_deleted; [done|]. destruct (leaderboard db !! u); by repeat constructor.
Qed.

(** An inserted or updated row of [projects], [assignments] or
    [quiz_attempts] has [update_leaderboard] called for it. *)
Lemma source_table_cases t :
  t ∈ [t_projects; t_assignments; t_quiz_attempts] →
  t = t_projects ∨ t = t_assignments ∨ t = t_quiz_attempts.
Proof.
  intros Ht.
  apply elem_of_cons in Ht as [->|Ht]; [by left|].
  apply elem_of_cons in Ht as [->|Ht]; [by right; left|].
  apply elem_of_cons in Ht as [->|Ht]; [by right; right|].
  by apply elem_of_nil in Ht.
Qed.

Lemma after_row_calls_written t c :
  t ∈ [t_projects; t_assignments; t_quiz_attempts] →
  changed_table c = t → event_of c ≠ DELETE →
  ∃ rest, after_row_calls t [c] = (fn_update_leaderboard, c) :: rest.
Proof.
  intros Ht Hc He. apply source_table_cases in Ht.
  destruct c as [new|old new|old]; [| |done]; simpl in Hc; subst t;
    destruct new; try (by destruct Ht as [?|[?|?]]); clear Ht.
  1-3: by eexists.
  all: unfold after_row_calls, fires; cbn;
    try destruct (SQL.is_null _ && SQL.is_not_null _); by eexists.
Qed.

(** The events queued for such rows end with a condition: the check of a
    foreign key when it runs and fails, the trigger function otherwise. *)
Lemma fire_run_written sess now t c changes db :
  t ∈ [t_projects; t_assignments; t_quiz_attempts] →
  changed_table c = t → event_of c ≠ DELETE →
  fire_run sess now (after_events t (c :: changes)) db
  = match ri_checks c with
    | ri_check new :: _ =>
        if references_hold db new then Raise undefined_column
        else Raise foreign_key_violation
    | _ => Raise undefined_column
    end.
Proof.
  intros Ht Hc He. destruct (after_row_calls_written t c Ht Hc He) as [rest Hcalls].
  unfold after_events. cbn [flat_map]. rewrite Hcalls. cbn [map fst snd].
  assert (ri_checks c = [] ∨ ∃ new, ri_checks c = [ri_check new]) as [->|[new ->]].
  { destruct c as [new|old new|old]; simpl.
    - destruct (foreign_keys new); eauto.
    - destruct (bool_decide _); eauto.
    - eauto. }
  - cbn. by rewrite update_leaderboard_run_raises.
  - cbn. destruct (references_hold db new); [|done].
    by rewrite update_leaderboard_run_raises.
Qed.

Lemma fire_run_written_raises sess now t c changes db db' :
  t ∈ [t_projects; t_assignments; t_quiz_attempts] →
  changed_table c = t → event_of c ≠ DELETE →
  fire_run sess now (after_events t (c :: changes)) db ≠ Ok db'.
Proof.
  intros Ht Hc He. rewrite (fire_run_written sess now t c changes db Ht Hc He).
  destruct (ri_checks c) as [|[new|] ?]; try done. by destruct (references_hold db new).
Qed.

(** ** Statements on the tables *)

Lemma with_leaderboard_same db : with_leaderboard db (leaderboard db) = db.
Proof. by destruct db. Qed.
Lemma with_projects_same db : with_projects db (projects db) = db.
Proof. by destruct db. Qed.
Lemma with_assignments_same db : with_assignments db (assignments db) = db.
Proof. by destruct db. Qed.
Lemma with_quiz_attempts_same db : with_quiz_attempts db (quiz_attempts db) = db.
Proof. by destruct db. Qed.

(** An [INSERT] on one of the three tables never takes effect. *)
Lemma insert_into_undone {A} sess now db t (mk : A → trigger_row) key row tbl
    (wrap : list A → database) db' :
  t ∈ [t_projects; t_assignments; t_quiz_attempts] →
  table_of (mk row) = t →
  match ('(tbl', changes) ← insert_into sess db t mk key row tbl;
         mret (wrap tbl', after_events t changes)) with
  | inl e => Raise e
  | inr (db1, events) => fire_run sess now events db1
  end ≠ Ok db'.
Proof.
  intros Ht Hm. unfold insert_into.
  destruct (row_security sess db cmd_insert false t) as [e|check]; [done|].
  cbn [mbind error_bind].
  destruct (negb (check (mk row))); [done|].
  destruct (bool_decide (key row ∈ map key tbl)); [done|].
  cbn [mbind error_bind mret error_ret].
  by apply fire_run_written_raises.
Qed.

(** An [UPDATE] on one of the three tables returns only when it reaches no
    row. *)
Lemma update_table_undone {A} sess now db t (mk : A → trigger_row) key wh set tbl
    (wrap : list A → database) db' :
  t ∈ [t_projects; t_assignments; t_quiz_attempts] →
  (∀ r, table_of (mk r) = t) →
  match ('(tbl', changes) ← update_table sess db t mk key wh set tbl;
         mret (wrap tbl', after_events t changes)) with
  | inl e => Raise e
  | inr (db1, events) => fire_run sess now events db1
  end = Ok db' →
  db' = wrap tbl
  ∧ (sess = table_owner → List.filter (matches wh) tbl = []).
Proof.
  intros Ht Hm. unfold update_table.
  destruct (row_security sess db cmd_update _ t) as [e|reach] eqn:Hsec; [done|].
  cbn [mbind error_bind].
  destruct (negb (forallb _ _)); [done|].
  destruct (bool_decide (NoDup _) || _); cbn [mbind error_bind mret error_ret]; [|done].
  unfold updates.
  destruct (List.filter (λ r, matches wh r && reach (mk r)) tbl) as [|r hit] eqn:Hhit.
  - rewrite update_rows_none by done. cbn. intros [= <-]. split; [done|].
    intros ->. injection Hsec as <-. rewrite <- Hhit. apply filter_ext_bool.
    intros r. by rewrite andb_true_r.
  - cbn [map]. intros H. exfalso. revert H. apply fire_run_written_raises; [done|apply Hm|done].
Qed.

(** A write to a source table returns only when it has written nothing. *)
Lemma source_write_undone sess now s db db' :
  source_write s = true → execute_run sess now s db = Ok db' →
  db' = db ∧ (sess = table_owner → written_rows s db = []).
Proof.
  destruct s; try done; intros _; unfold execute_run, apply_statement, written_rows.
  - intros H. exfalso. revert H.
    apply (insert_into_undone sess now db t_projects project_row Project.id p (projects db)
             (with_projects db) db'); [by repeat constructor|done].
  - intros H.
    apply (update_table_undone sess now db t_projects project_row Project.id wh set
             (projects db) (with_projects db) db') in H as [-> H]; [|by repeat constructor|done].
    rewrite with_projects_same. split; [done|]. intros Hs. by rewrite (H Hs).
  - intros H. exfalso. revert H.
    apply (insert_into_undone sess now db t_assignments assignment_row Assignment.id a
             (assignments db) (with_assignments db) db'); [by repeat constructor|done].
  - intros H.
    apply (update_table_undone sess now db t_assignments assignment_row Assignment.id wh set
             (assignments db) (with_assignments db) db') in H as [-> H]; [|by repeat constructor|done].
    rewrite with_assignments_same. split; [done|]. intros Hs. by rewrite (H Hs).
  - intros H. exfalso. revert H.
    apply (insert_into_undone sess now db t_quiz_attempts attempt_row QuizAttempt.id qa
             (quiz_attempts db) (with_quiz_attempts db) db'); [by repeat constructor|done].
  - intros H.
    apply (update_table_undone sess now db t_quiz_attempts attempt_row QuizAttempt.id wh set
             (quiz_attempts db) (with_quiz_attempts db) db') in H as [-> H]; [|by repeat constructor|done].
    rewrite with_quiz_attempts_same. split; [done|]. intros Hs. by rewrite (H Hs).
Qed.

(** What an [INSERT] of an exempt session on a source table ends with. *)
Lemma source_insert_outcome now s db row :
  proposed_row s = Some row →
  exec_run now s db
  = Raise (if key_taken s db then unique_violation
           else if references_hold db row then undefined_column
                else foreign_key_violation).
Proof.
  destruct s; try done; intros [= <-];
    unfold exec_run, execute_run, apply_statement, insert_into, key_taken;
    cbn [row_security mbind error_bind mret error_ret negb];
    (destruct (bool_decide _) eqn:Hk; [done|]);
    cbn [mbind error_bind mret error_ret].
  - rewrite (fire_run_written table_owner now t_projects) by (done || by repeat constructor).
    cbn [ri_checks foreign_keys]. by destruct (references_hold _ _).
  - rewrite (fire_run_written table_owner now t_assignments) by (done || by repeat constructor).
    cbn [ri_checks foreign_keys]. by destruct (references_hold _ _).
  - rewrite (fire_run_written table_owner now t_quiz_attempts) by (done || by repeat constructor).
    cbn [ri_checks foreign_keys]. by destruct (references_hold _ _).
Qed.

Lemma reached_nothing reach wh (lb : gmap uuid lb_entry) :
  (∀ row, reach row = false) → reached reach wh lb = ∅.
Proof.
  intros Hr. apply map_empty. intros u. apply map_lookup_filter_None. right.
  intros e _. simpl. rewrite Hr. by rewrite andb_false_r.
Qed.

(** A client cannot write to [leaderboard]: an [INSERT] is refused, an
    [UPDATE] or a [DELETE] reaches no row. *)
Lemma leaderboard_write_refused uid now s db r :
  leaderboard_write s = true → client_exec uid now s db r →
  r = match s with insert_leaderboard _ _ => Raise insufficient_privilege | _ => Ok db end.
Proof.
  intros Hs Hr. apply execute_iff in Hr as ->.
  destruct s; try discriminate Hs; unfold execute_run, apply_statement.
  - destruct (row_security_leaderboard uid db cmd_insert false) as (q & -> & Hq).
    cbn [mbind error_bind]. by rewrite Hq.
  - destruct (row_security_leaderboard uid db cmd_update (reads_where wh || reads_set set))
      as (q & -> & Hq).
    cbn [mbind error_bind mret error_ret].
    rewrite reached_nothing by done.
    rewrite bool_decide_eq_true_2 by apply map_Forall_empty.
    rewrite fmap_empty, (left_id_L ∅ (∪)), with_leaderboard_same.
    unfold lb_changes. by rewrite map_to_list_empty.
  - destruct (row_security_leaderboard uid db cmd_delete (reads_where wh)) as (q & -> & Hq).
    cbn [mbind error_bind mret error_ret].
    rewrite reached_nothing by done.
    rewrite map_difference_empty, with_leaderboard_same.
    unfold lb_changes. by rewrite map_to_list_empty.
Qed.

(** A [DELETE] on a source table leaves the leaderboard alone. *)
Lemma delete_from_outcome {A} sess now db t (mk : A → trigger_row) wh tbl
    (wrap : list A → database) db' :
  match ('(tbl', changes) ← delete_from sess db t mk wh tbl;
         mret (wrap tbl', after_events t changes)) with
  | inl e => Raise e
  | inr (db1, events) => fire_run sess now events db1
  end = Ok db' →
  ∃ tbl', db' = wrap tbl'.
Proof.
  unfold delete_from. destruct (row_security sess db cmd_delete _ t) as [e|reach]; [done|].
  cbn [mbind error_bind mret error_ret].
  rewrite after_events_deleted by apply deletions_deleted.
  intros [= <-]. eauto.
Qed.

Lemma source_delete_keeps sess now s db db' :
  source_delete s = true → execute_run sess now s db = Ok db' →
  leaderboard db' = leaderboard db.
Proof.
  destruct s; try done; intros _ H; unfold execute_run, apply_statement in H;
    apply delete_from_outcome in H as [tbl' ->]; done.
Qed.

Lemma delete_user_outcome sess now u db db' :
  execute_run sess now (delete_user u) db = Ok db' →
  db' = db ∨ db' = cascade_delete_user u db.
Proof.
  unfold execute_run, apply_statement.
  destruct (row_security sess db cmd_delete true t_users) as [e|reach]; [done|].
  cbn [mbind error_bind mret error_ret].
  destruct (existsb _ _).
  - rewrite cascade_changes_nil. intros [= <-]. by right.
  - intros [= <-]. by left.
Qed.

Lemma clear_leaderboard_owner db :
  clear_leaderboard table_owner db
  = inr (with_leaderboard db ∅, student_ids (users db)).
Proof.
  unfold clear_leaderboard. cbn [row_security mbind error_bind mret error_ret].
  replace (filter _ (leaderboard db)) with (∅ : gmap uuid lb_entry).
  2:{ symmetry. apply map_empty. intros u. apply map_lookup_filter_None. right. by intros e _. }
  resolve_names. unfold visible_rows.
  cbn [row_security mbind error_bind mret error_ret]. by rewrite filter_all.
Qed.

Lemma clear_leaderboard_client uid db :
  clear_leaderboard (client uid) db = inl invalid_object_definition.
Proof.
  unfold clear_leaderboard.
  destruct (row_security_leaderboard uid db cmd_delete false) as (q & -> & Hq).
  reflexivity.
Qed.

(** [refresh_all_leaderboard] returns for an exempt session when no user is
    a student, with an empty table, and in no other case. *)
Lemma refresh_all_leaderboard_outcome sess now db :
  refresh_all_leaderboard_run sess now db
  = match sess with
    | table_owner =>
        match student_ids (users db) with
        | [] => Ok (with_leaderboard db ∅)
        | _ => Raise undefined_function
        end
    | client _ => Raise invalid_object_definition
    end.
Proof.
  unfold refresh_all_leaderboard_run. destruct sess as [|uid].
  - rewrite clear_leaderboard_owner. destruct (student_ids (users db)); [done|].
    cbn [refresh_each_run]. by rewrite refresh_user_leaderboard_run_raises.
  - by rewrite clear_leaderboard_client.
Qed.

(** ** The subtotals of the projects *)

Lemma holds_and3 a b : SQL.holds (SQL.and3 a b) = SQL.holds a && SQL.holds b.
Proof. by destruct a as [[]|], b as [[]|]. Qed.

Lemma holds_verified p :
  SQL.holds (SQL.eq3 Bool.eqb (Project.verified p) (Some true)) = is_verified p.
Proof. unfold is_verified. by destruct (Project.verified p) as [[]|]. Qed.

Lemma holds_challenge p :
  SQL.holds (SQL.eq_any "challenge" (Project.tags p)) = tagged_challenge p.
Proof.
  unfold tagged_challenge, SQL.eq_any. destruct (Project.tags p) as [l|]; [|done].
  destruct (existsb _ l); [done|]. by destruct (existsb _ l).
Qed.

(** [calculate_project_points] does not look at the tags. *)
Lemma calculate_project_points_eq u db :
  calculate_project_points table_owner (Some u) db
  = inr (100 * Z.of_nat (length (verified_projects u db))
         + 100 * Z.of_nat (length (verified_challenges u db)))%Z.
Proof.
  unfold calculate_project_points, visible_rows. resolve_names.
  cbn [row_security mbind error_bind mret error_ret eq_operator value_of]. f_equal.
  unfold verified_projects, verified_challenges, projects_of, SQL.count_star, SQL.coalesce_or.
  rewrite (filter_all (λ _, true)) by done.
  rewrite (filter_ext_bool _ (λ p, N.eqb (Project.owner_id p) u && is_verified p)).
  2:{ intros p. rewrite holds_and3, holds_verified. cbn [SQL.eq3 SQL.holds].
      by destruct (N.eqb _ _). }
  rewrite filter_andb.
  rewrite (length_filter_split is_verified tagged_challenge). lia.
Qed.

Lemma calculate_challenge_points_eq u db :
  calculate_challenge_points table_owner (Some u) db
  = inr (80 * Z.of_nat (length (verified_challenges u db)))%Z.
Proof.
  unfold calculate_challenge_points, visible_rows. resolve_names.
  cbn [row_security mbind error_bind mret error_ret eq_operator value_of]. f_equal.
  unfold verified_challenges, projects_of, SQL.count_star, SQL.coalesce_or.
  rewrite (filter_all (λ _, true)) by done.
  rewrite (filter_ext_bool _
             (λ p, N.eqb (Project.owner_id p) u && (is_verified p && tagged_challenge p))).
  2:{ intros p. rewrite !holds_and3, holds_verified, holds_challenge.
      cbn [SQL.eq3 SQL.holds]. by destruct (N.eqb _ _), (is_verified p). }
  rewrite filter_andb. lia.
Qed.

(** ** The claims about the subtotals *)

(** C1 (the code departs from the claim). The claim keeps a verified project
    tagged "challenge" out of the projects subtotal. [calculate_project_points]
    does not look at the tags: for a user whose only record is one such
    project, who has no project that the claim would count, it returns 100,
    and [calculate_challenge_points] returns 80. *)
Theorem C1_challenge_project_counted_twice :
  verified_projects 1 challenge_db = []
  ∧ length (verified_challenges 1 challenge_db) = 1
  ∧ calculate_project_points table_owner (Some 1%N) challenge_db = inr 100%Z
  ∧ calculate_challenge_points table_owner (Some 1%N) challenge_db = inr 80%Z.
Proof. repeat split; by vm_compute. Qed.

(** C2 (the code departs from the claim). [calculate_quiz_points] compares
    the answer, a [jsonb], with the correct index cast to [integer]; no
    operator [=] takes these two, so the query cannot be analysed and every
    call ends with 42883, whatever the user and the rows: also for the
    student of [example_db], whose one completed attempt has 8 correct
    answers. *)
Theorem C2_quiz_points_operator_missing :
  (∀ sess student_id db, calculate_quiz_points sess student_id db = inl undefined_function)
  ∧ eq_operator JSONB INTEGER = inl undefined_function
  ∧ length (attempts_of 1 example_db) = 1
  ∧ spec_quiz_points 1 example_db = 8%Z.
Proof. split; [apply calculate_quiz_points_raises|]. repeat split; by vm_compute. Qed.

(** C8 (the code departs from the claim). The student of [example_db] has
    exactly the records of the example: one completed attempt with 8 of 10
    answers correct, one submitted assignment, one verified project without
    the tag. The recomputation for this user ends with 42883 and writes no
    row: of the four subtotals only the last two can be computed. *)
Theorem C8_worked_example_raises :
  (∃ qa, attempts_of 1 example_db = [qa]
         ∧ is_Some (QuizAttempt.completed_at qa) ∧ completed_score example_db qa = 8%Z)
  ∧ (∃ a, assignments_of 1 example_db = [a] ∧ is_submitted a = true)
  ∧ (∃ p, projects_of 1 example_db = [p] ∧ is_verified p = true ∧ tagged_challenge p = false)
  ∧ calculate_quiz_points table_owner (Some 1%N) example_db = inl undefined_function
  ∧ calculate_assignment_points table_owner (Some 1%N) example_db = inl ambiguous_column
  ∧ calculate_project_points table_owner (Some 1%N) example_db = inr 100%Z
  ∧ calculate_challenge_points table_owner (Some 1%N) example_db = inr 0%Z
  ∧ ∀ sess now r,
      execute sess now (select_refresh_user_leaderboard 1) example_db r →
      r = Raise undefined_function.
Proof.
  split; [|split; [|split]].
  - eexists. split; [by vm_compute|]. split; [by eexists|by vm_compute].
  - eexists. split; by vm_compute.
  - eexists. split; [by vm_compute|]. split; by vm_compute.
  - do 4 (split; [by vm_compute|]).
    intros sess now r Hr. unfold execute in Hr.
    by apply refresh_user_leaderboard_raises in Hr.
Qed.

(** ** The claims about the trigger and the functions *)

(** C3 (the code departs from the claim). An [INSERT] or [UPDATE] on
    [quiz_attempts], [assignments] or [projects] does call
    [update_leaderboard] for every row it writes, inside the statement; but
    the function reads [NEW.student_id], [NEW.owner_id] and [NEW.user_id],
    and no table has all three, so the call ends with 42703 and takes the
    statement with it. Such a statement returns only when it has written no
    row, with the database as it was; an insert of a new row whose
    references exist ends with 42703. No trigger is declared on
    [leaderboard], so no write to that table calls the function. *)
Theorem C3_write_is_undone sess now s db r :
  source_write s = true → execute sess now s db r →
  (∀ db', r = Ok db' → db' = db ∧ (sess = table_owner → written_rows s db = []))
  ∧ (∀ row, sess = table_owner → proposed_row s = Some row → key_taken s db = false →
            references_hold db row = true → r = Raise undefined_column)
  ∧ (∀ changes, after_row_calls t_leaderboard changes = []).
Proof.
  intros Hs Hr. apply execute_iff in Hr as ->. split; [|split].
  - intros db' H. by apply (source_write_undone sess now s db db').
  - intros row -> Hrow Hk Hf.
    change (execute_run table_owner now s db) with (exec_run now s db).
    by rewrite (source_insert_outcome now s db row Hrow), Hk, Hf.
  - apply after_row_calls_leaderboard.
Qed.

(** A second attempt of the student of [example_db] at the quiz. *)
Lemma C3_write_is_undone_witness :
  exec_run 9 (insert_quiz_attempt (QuizAttempt.mk 41 30 1 eight_right (Some 9%Z))) example_db
  = Raise undefined_column.
Proof.
  destruct (C3_write_is_undone table_owner 9%Z
              (insert_quiz_attempt (QuizAttempt.mk 41 30 1 eight_right (Some 9%Z)))
              example_db
              (exec_run 9 (insert_quiz_attempt (QuizAttempt.mk 41 30 1 eight_right (Some 9%Z)))
                        example_db)
              eq_refl (execute_run_sound table_owner _ _ _)) as (_ & H & _).
  apply (H (attempt_row (QuizAttempt.mk 41 30 1 eight_right (Some 9%Z))));
    by vm_compute.
Defined.

(** C4 (the code departs from the claim). [refresh_user_leaderboard] ends
    with 42883 at its first statement, the call of [calculate_quiz_points]:
    neither of two calls in a row produces a leaderboard entry. *)
Theorem C4_recompute_raises sess now1 now2 user_id db r1 r2 :
  execute sess now1 (select_refresh_user_leaderboard user_id) db r1 →
  execute sess now2 (select_refresh_user_leaderboard user_id) db r2 →
  r1 = Raise undefined_function ∧ r2 = Raise undefined_function.
Proof.
  unfold execute. intros H1 H2.
  split; [apply refresh_user_leaderboard_raises in H1
         |apply refresh_user_leaderboard_raises in H2]; done.
Qed.

Lemma C4_recompute_raises_witness :
  exec_run 7 (select_refresh_user_leaderboard 1) example_db = Raise undefined_function
  ∧ exec_run 8 (select_refresh_user_leaderboard 1) example_db = Raise undefined_function.
Proof.
  apply (C4_recompute_raises table_owner 7%Z 8%Z 1%N example_db); apply exec_run_sound.
Defined.

(** C5 (the code departs from the claim). No recomputation assigns a rank.
    The rank statement cannot be analysed inside either function:
    [total_points] is a column of [leaderboard] and a variable of both, and
    [user_id] is the parameter of [refresh_user_leaderboard]. It is never
    reached either: the trigger function ends with 42703 and
    [refresh_user_leaderboard] with 42883 before it. The rows of [tied_db],
    with the totals 300, 200, 200 and 100, stay without ranks. *)
Theorem C5_ranks_never_assigned :
  (∀ sess db x, update_ranks sess update_leaderboard_variables db x → x = inl ambiguous_column)
  ∧ (∀ sess db x,
       update_ranks sess refresh_user_leaderboard_variables db x → x = inl ambiguous_column)
  ∧ (∀ sess now c db r, update_leaderboard sess now c db r → r = Raise undefined_column)
  ∧ (∀ sess now u db r,
       refresh_user_leaderboard sess now u db r → r = Raise undefined_function)
  ∧ map (λ u, (λ e, (total_points e, rank e)) <$> leaderboard tied_db !! u) [1; 2; 3; 4]%N
    = [Some (300%Z, None); Some (200%Z, None); Some (200%Z, None); Some (100%Z, None)]
  ∧ exec_run 0 (select_refresh_user_leaderboard 2) tied_db = Raise undefined_function
  ∧ exec_run 0 (insert_project (Project.mk 18 4 (Some []) (Some true))) tied_db
    = Raise undefined_column.
Proof.
  split; [|split; [|split; [|split]]].
  - intros sess db x. unfold update_ranks. by rewrite rank_statement_trigger.
  - intros sess db x. unfold update_ranks. by rewrite rank_statement_refresh.
  - intros sess now c db r H. by apply update_leaderboard_raises in H.
  - intros sess now u db r H. by apply refresh_user_leaderboard_raises in H.
  - repeat split; by vm_compute.
Qed.

(** ** Statements sent to the leaderboard table *)

(** C6 (the code departs from the claim). A statement that a client sends to
    the [leaderboard] table is stopped by the policies: an [INSERT] ends with
    a row-level-security violation, an [UPDATE] or a [DELETE] reaches no
    row and leaves the database as it was. The recomputation does not go
    through either: every call of [update_leaderboard] ends with 42703,
    before any subtotal is computed, for the session that owns the tables
    as for a client, and upserts nothing. *)
Theorem C6_client_refused_routine_raises :
  (∀ uid now s db r,
     leaderboard_write s = true → client_exec uid now s db r →
     r = match s with
         | insert_leaderboard _ _ => Raise insufficient_privilege
         | _ => Ok db
         end)
  ∧ (∀ sess now c db r, update_leaderboard sess now c db r → r = Raise undefined_column)
  ∧ (∀ c, target_user_id c = inl undefined_column)
  ∧ client_exec_run (Some "auth-1") 9
      (insert_leaderboard 1 (mk_entry 1000 (mk_breakdown 0 0 0 1000) None 9)) example_db
    = Raise insufficient_privilege
  ∧ update_leaderboard_run table_owner 9
      (inserted (project_row (Project.mk 11 1 (Some []) (Some false)))) example_db
    = Raise undefined_column.
Proof.
  split; [|split; [|split; [|split]]].
  - apply leaderboard_write_refused.
  - intros sess now c db r H. by apply update_leaderboard_raises in H.
  - apply target_user_id_raises.
  - by vm_compute.
  - by vm_compute.
Qed.

(** ** The life of a leaderboard row *)

(** C7 as claimed fails: [refresh_all_leaderboard] removes the row of a
    user who still exists. *)
Lemma C7_refresh_all_deletes_rows :
  ¬ (∀ now s db db' u,
       exec now s db (Ok db') →
       is_Some (leaderboard db !! u) → leaderboard db' !! u = None →
       s = delete_user u).
Proof.
  intros H.
  specialize (H 5%Z select_refresh_all_leaderboard mentor_db
                (with_leaderboard mentor_db ∅) 2%N).
  assert (select_refresh_all_leaderboard = delete_user 2) as Heq; [|done].
  apply H.
  - apply execute_iff. unfold execute_run. by rewrite refresh_all_leaderboard_outcome.
  - by eexists.
  - done.
Qed.

(** C7, amended. Rows of the leaderboard are removed by the cascade of
    deleting their user, which removes no other row, and by
    [refresh_all_leaderboard], whose first statement clears the table: when
    the call returns, no user who is not a student has a row (it returns
    only for a session exempt from row-level security and when no user is a
    student, and then the table is empty). No other statement, apart from
    those sent to the leaderboard table itself, removes a row. *)
Theorem C7_row_lifecycle :
  (∀ sess now s db db',
     execute sess now s db (Ok db') →
     leaderboard_write s = false → s ≠ select_refresh_all_leaderboard →
     (∀ u, s ≠ delete_user u) →
     leaderboard db' = leaderboard db)
  ∧ (∀ sess now u db db',
       execute sess now (delete_user u) db (Ok db') →
       ∀ v, v ≠ u → leaderboard db' !! v = leaderboard db !! v)
  ∧ (∀ sess now db db',
       execute sess now select_refresh_all_leaderboard db (Ok db') →
       sess = table_owner ∧ student_ids (users db) = [] ∧ db' = with_leaderboard db ∅).
Proof.
  split; [|split].
  - intros sess now s db db' Hr Hl Hall Hu. apply execute_iff in Hr. symmetry in Hr.
    destruct (source_write s) eqn:Hw.
    { by apply source_write_undone in Hr as [-> _]. }
    destruct (source_delete s) eqn:Hd.
    { by apply source_delete_keeps in Hr. }
    destruct s; try done. by destruct (Hu user_id).
  - intros sess now u db db' Hr v Hv. apply execute_iff in Hr. symmetry in Hr.
    apply delete_user_outcome in Hr as [->| ->]; [done|].
    simpl. by rewrite lookup_delete_ne.
  - intros sess now db db' Hr. apply execute_iff in Hr.
    unfold execute_run in Hr. rewrite refresh_all_leaderboard_outcome in Hr.
    destruct sess; [|done]. destruct (student_ids (users db)); [|done].
    by injection Hr as ->.
Qed.

(** A project deleted from [loaded_db], the mentor removed from [mentor_db]
    and all rows refreshed on [mentor_db]. *)
Lemma C7_row_lifecycle_witness :
  (∃ db', exec_run 9 (delete_projects (where_ (λ p, N.eqb (Project.id p) 10))) loaded_db = Ok db'
          ∧ leaderboard db' = leaderboard loaded_db)
  ∧ (∃ db', exec_run 9 (delete_user 2) mentor_db = Ok db' ∧ leaderboard db' = ∅)
  ∧ exec_run 9 select_refresh_all_leaderboard mentor_db = Ok (with_leaderboard mentor_db ∅).
Proof.
  split; [|split].
  - eexists. split; [reflexivity|].
    apply (proj1 C7_row_lifecycle table_owner 9%Z
             (delete_projects (where_ (λ p, N.eqb (Project.id p) 10))) loaded_db);
      [apply exec_run_sound|done..].
  - eexists. split; [reflexivity|]. by vm_compute.
  - by vm_compute.
Defined.

(** ** The total and its breakdown *)


(** ** The AI call wrapper *)

Lemma callAI_attempts_bounded base factor well_formed provider :
  AI.attempts_made (AI.callAI base factor well_formed provider) ≤ AI.max_attempts.
Proof.
  unfold AI.callAI, AI.max_attempts. simpl.
  repeat (destruct (AI.classify _ _); simpl; try lia).
Qed.

Lemma callAI_first_success base factor well_formed provider n body :
  n < AI.max_attempts →
  (∀ k, k < n → ∃ f, AI.classify well_formed (provider k) = inl f) →
  AI.classify well_formed (provider n) = inr body →
  AI.result_of (AI.callAI base factor well_formed provider) = AI.ai_ok body
  ∧ AI.attempts_made (AI.callAI base factor well_formed provider) = S n.
Proof.
  unfold AI.max_attempts, AI.callAI. intros Hn Hfail Hok.
  destruct n as [|[|[|n]]]; [| | |lia]; simpl.
  - by rewrite Hok.
  - destruct (Hfail 0) as [f0 ->]; [lia|]. by rewrite Hok.
  - destruct (Hfail 0) as [f0 ->]; [lia|]. destruct (Hfail 1) as [f1 ->]; [lia|].
    by rewrite Hok.
Qed.

(** C9. [callAI] makes a further attempt after every failed one, whatever
    the failure (timeout, status outside 2xx, body that does not validate),
    never more than 3 in all, pausing [base], then [base * factor] between
    them. When the first three attempts all fail, the caller holds a typed
    failure that names the last failure and the 3 attempts, and grading
    returns without AI feedback, with the basic score: the number of
    submitted answers equal to the correct index of their question. *)
Theorem C9_retry_then_fallback base factor well_formed provider userAnswers questions f0 f1 f2 :
  AI.classify well_formed (provider 0) = inl f0 →
  AI.classify well_formed (provider 1) = inl f1 →
  AI.classify well_formed (provider 2) = inl f2 →
  AI.callAI base factor well_formed provider
  = AI.mk_report (AI.ai_failure f2 3) 3 [base; (base * factor)%Z]
  ∧ AI.gradeQuizAnswers base factor well_formed provider userAnswers questions
    = AI.mk_grading None (AI.basic_score userAnswers questions)
                    (AI.basic_score userAnswers questions) (length questions)
  ∧ AI.basic_score userAnswers questions
    = length (List.filter (λ aq : Z * question, bool_decide (correctIndex aq.2 = Some aq.1))
                          (zip userAnswers questions)).
Proof.
  intros H0 H1 H2.
  assert (AI.callAI base factor well_formed provider
          = AI.mk_report (AI.ai_failure f2 3) 3 [base; (base * factor)%Z]) as Hcall.
  { unfold AI.callAI, AI.max_attempts. simpl. rewrite H0, H1, H2. simpl.
    unfold AI.backoff. simpl. do 3 f_equal; [lia | f_equal; lia]. }
  split; [done|]. split.
  - unfold AI.gradeQuizAnswers. by rewrite Hcall.
  - unfold AI.basic_score. f_equal. apply filter_ext_bool. intros [a q]. simpl.
    destruct (correctIndex q) as [n|].
    + destruct (Z.eqb_spec a n) as [->|Hne].
      * by rewrite bool_decide_eq_true_2.
      * rewrite bool_decide_eq_false_2; [done | congruence].
    + by rewrite bool_decide_eq_false_2.
Qed.

(** Three failures of three kinds, pauses of 1000 and 2000. *)
Lemma C9_retry_then_fallback_witness :
  AI.callAI 1000 2 (λ body, String.eqb body "{}") AI.fails_three_ways
  = AI.mk_report (AI.ai_failure AI.malformed_payload 3) 3 [1000; 2000]%Z
  ∧ AI.gradeQuizAnswers 1000 2 (λ body, String.eqb body "{}") AI.fails_three_ways
      [0; 1; 2; 3; 0; 1; 2; 3; 3; 3]%Z ten_questions
    = AI.mk_grading None 8 8 10.
Proof.
  destruct (C9_retry_then_fallback 1000 2 (λ body, String.eqb body "{}") AI.fails_three_ways
              [0; 1; 2; 3; 0; 1; 2; 3; 3; 3]%Z ten_questions
              AI.timeout (AI.non_2xx 503) AI.malformed_payload
              eq_refl eq_refl eq_refl) as (Hc & Hg & _).
  split; [exact Hc | exact Hg].
Defined.


(** * Further properties *)

(** ** The two subtotals that can be computed *)

(** X4. For a session exempt from row-level security the projects subtotal
    is 100 for every verified project of the user and the challenges
    subtotal 80 for every verified project tagged "challenge": multiples of
    100 and of 80, and since every such project is counted in both, five
    times the second never exceeds four times the first. *)
Theorem X4_project_points_shape u db :
  ∃ p c,
    calculate_project_points table_owner (Some u) db = inr p
    ∧ calculate_challenge_points table_owner (Some u) db = inr c
    ∧ p = (100 * Z.of_nat (length (List.filter is_verified (projects_of u db))))%Z
    ∧ c = (80 * Z.of_nat (length (verified_challenges u db)))%Z
    ∧ (0 ≤ c)%Z ∧ (5 * c ≤ 4 * p)%Z.
Proof.
  eexists _, _. split; [apply calculate_project_points_eq|].
  split; [apply calculate_challenge_points_eq|].
  unfold verified_projects, verified_challenges.
  rewrite (length_filter_split is_verified tagged_challenge). lia.
Qed.

(** ** What the statements end with *)

(** X5. An [INSERT] on [projects], [assignments] or [quiz_attempts] by a
    session exempt from row-level security never succeeds: it ends with
    23505 when the primary key is taken, with 23503 when a row it refers to
    is missing, and with the 42703 of the trigger function otherwise. *)
Theorem X5_insert_never_succeeds now s db r row :
  proposed_row s = Some row → exec now s db r →
  r = Raise (if key_taken s db then unique_violation
             else if references_hold db row then undefined_column
                  else foreign_key_violation).
Proof.
  intros Hrow Hr. apply execute_iff in Hr as ->. by apply source_insert_outcome.
Qed.

(** A project with a taken key, one of an unknown owner, and a new one of
    user 1, on [example_db]. *)
Lemma X5_insert_never_succeeds_witness :
  exec_run 9 (insert_project (Project.mk 10 1 None None)) example_db = Raise unique_violation
  ∧ exec_run 9 (insert_project (Project.mk 11 7 None None)) example_db
    = Raise foreign_key_violation
  ∧ exec_run 9 (insert_project (Project.mk 11 1 None None)) example_db
    = Raise undefined_column.
Proof.
  split; [|split].
  - apply (X5_insert_never_succeeds 9%Z (insert_project (Project.mk 10 1 None None))
             example_db _ (project_row (Project.mk 10 1 None None)) eq_refl).
    apply exec_run_sound.
  - apply (X5_insert_never_succeeds 9%Z (insert_project (Project.mk 11 7 None None))
             example_db _ (project_row (Project.mk 11 7 None None)) eq_refl).
    apply exec_run_sound.
  - apply (X5_insert_never_succeeds 9%Z (insert_project (Project.mk 11 1 None None))
             example_db _ (project_row (Project.mk 11 1 None None)) eq_refl).
    apply exec_run_sound.
Defined.

(** ** What the triggers do not do *)

(** X9. A [DELETE] on [projects], [assignments] or [quiz_attempts] fires no
    trigger: the statement removes the rows and returns with the leaderboard
    exactly as it was, so the row of the owner keeps the points of the
    deleted records. *)
Theorem X9_delete_does_not_recompute now s db r :
  source_delete s = true → exec now s db r →
  r = Ok (after_write s db) ∧ leaderboard (after_write s db) = leaderboard db.
Proof.
  intros Hs Hex. apply execute_iff in Hex as ->.
  destruct s; try done; unfold after_write, execute_run, apply_statement, delete_from;
    cbn [row_security mbind error_bind mret error_ret];
    by rewrite after_events_deleted by apply deletions_deleted.
Qed.

(** The verified project of user 1 deleted from [loaded_db]. *)
Lemma X9_delete_does_not_recompute_witness :
  let db := loaded_db in
  let s := delete_projects (where_ (λ p, N.eqb (Project.id p) 10)) in
  exec_run 9 s db = Ok (after_write s db)
  ∧ leaderboard (after_write s db) = leaderboard db.
Proof.
  apply (X9_delete_does_not_recompute 9
           (delete_projects (where_ (λ p, N.eqb (Project.id p) 10))) loaded_db).
  - reflexivity.
  - apply exec_run_sound.
Defined.


(** ** The table as a whole *)

(** X13. [refresh_all_leaderboard] rebuilds nothing. Called by a session
    exempt from row-level security it ends with 42883 as soon as one user is
    a student, and the rows it had deleted are back; with no student it
    returns and leaves the table empty. Called by a client it ends with
    42P17 at the query on [users]. *)
Theorem X13_refresh_all_outcome sess now db r :
  execute sess now select_refresh_all_leaderboard db r →
  r = match sess with
      | table_owner =>
          match student_ids (users db) with
          | [] => Ok (with_leaderboard db ∅)
          | _ => Raise undefined_function
          end
      | client _ => Raise invalid_object_definition
      end.
Proof.
  intros Hr. apply execute_iff in Hr as ->. apply refresh_all_leaderboard_outcome.
Qed.

(** On [loaded_db], which has a student, and on [mentor_db], which has none. *)
Lemma X13_refresh_all_outcome_witness :
  exec_run 9 select_refresh_all_leaderboard loaded_db = Raise undefined_function
  ∧ exec_run 9 select_refresh_all_leaderboard mentor_db = Ok (with_leaderboard mentor_db ∅)
  ∧ client_exec_run None 9 select_refresh_all_leaderboard mentor_db
    = Raise invalid_object_definition.
Proof.
  split; [|split].
  - apply (X13_refresh_all_outcome table_owner 9%Z loaded_db). apply exec_run_sound.
  - apply (X13_refresh_all_outcome table_owner 9%Z mentor_db). apply exec_run_sound.
  - apply (X13_refresh_all_outcome (client None) 9%Z mentor_db). apply execute_run_sound.
Defined.

(** ** Row-level security of the source tables *)

Lemma filter_none {A} (f : A → bool) (l : list A) :
  (∀ x, f x = false) → List.filter f l = [].
Proof. intros H. induction l as [|x l IH]; simpl; [done|]. by rewrite H. Qed.

(** A statement that may touch no row changes nothing and queues nothing. *)
Lemma update_table_unreached {A} sess db t (mk : A → trigger_row) key wh set (tbl : list A) :
  row_security sess db cmd_update (reads_where wh || reads_set set) t = inr (λ _, false) →
  update_table sess db t mk key wh set tbl = inr (tbl, []).
Proof.
  intros Hs. unfold update_table. rewrite Hs. cbn [mbind error_bind mret error_ret].
  unfold updates.
  rewrite (filter_none (λ r, matches wh r && false)) by (intros r; apply andb_false_r).
  cbn [forallb negb map].
  rewrite update_rows_none by (apply filter_none; intros r; apply andb_false_r).
  by rewrite (bool_decide_eq_true_2 (map key tbl = map key tbl)), orb_true_r.
Qed.

Lemma delete_from_unreached {A} sess db t (mk : A → trigger_row) wh (tbl : list A) :
  row_security sess db cmd_delete (reads_where wh) t = inr (λ _, false) →
  delete_from sess db t mk wh tbl = inr (tbl, []).
Proof.
  intros Hs. unfold delete_from. rewrite Hs. cbn [mbind error_bind mret error_ret].
  unfold deletions.
  rewrite (filter_none (λ r, matches wh r && false)) by (intros r; apply andb_false_r).
  by rewrite delete_rows_none by (intros r; apply andb_false_r).
Qed.

(** X16. A client cannot insert a project, an assignment or a quiz attempt,
    whoever it is: the check of the [INSERT] policy has a sub-select on
    [users], whose own policy "Admins can view all users" reads [users]
    again, and the statement ends with 42P17 before any row is looked at. *)
Theorem X16_client_insert_recursion uid now s db r :
  source_insert s = true → client_exec uid now s db r →
  r = Raise invalid_object_definition.
Proof.
  intros Hs Hr. apply execute_iff in Hr as ->.
  destruct s; try done; unfold execute_run, apply_statement, insert_into;
    by rewrite row_security_reads_users.
Qed.

(** The student of [example_db] inserts a project of their own. *)
Lemma X16_client_insert_recursion_witness :
  client_exec_run (Some "auth-1") 9 (insert_project (Project.mk 11 1 None None)) example_db
  = Raise invalid_object_definition.
Proof.
  apply (X16_client_insert_recursion (Some "auth-1") 9%Z
           (insert_project (Project.mk 11 1 None None)) example_db).
  - reflexivity.
  - apply client_exec_run_sound.
Defined.

(** X17. No policy exists for [UPDATE] or [DELETE] on [assignments] and
    [quiz_attempts], nor for [DELETE] on [projects]. Such a statement of a
    client reaches no row and leaves the database as it was when it reads no
    column; when it reads one, in its [WHERE] clause or on the right of a
    [SET], the [SELECT] policies are added, and with their sub-select on
    [users] the statement ends with 42P17. *)
Theorem X17_no_policy_for_update_or_delete uid now s db r :
  without_policy s = true → client_exec uid now s db r →
  r = if reads_columns s then Raise invalid_object_definition else Ok db.
Proof.
  intros Hs Hr. apply execute_iff in Hr as ->.
  destruct s; try done; unfold execute_run, apply_statement, reads_columns.
  - destruct (reads_where wh) eqn:Hw.
    + unfold delete_from. rewrite Hw. by rewrite row_security_reading by (by right || done).
    + rewrite delete_from_unreached by (rewrite Hw; by apply row_security_not_reading).
      cbn. by rewrite with_projects_same.
  - destruct (reads_where wh || reads_set set) eqn:Hw.
    + unfold update_table. rewrite Hw. by rewrite row_security_reading by (by left || done).
    + rewrite update_table_unreached by (rewrite Hw; by apply row_security_not_reading).
      cbn. by rewrite with_assignments_same.
  - destruct (reads_where wh) eqn:Hw.
    + unfold delete_from. rewrite Hw. by rewrite row_security_reading by (by right || done).
    + rewrite delete_from_unreached by (rewrite Hw; by apply row_security_not_reading).
      cbn. by rewrite with_assignments_same.
  - destruct (reads_where wh || reads_set set) eqn:Hw.
    + unfold update_table. rewrite Hw. by rewrite row_security_reading by (by left || done).
    + rewrite update_table_unreached by (rewrite Hw; by apply row_security_not_reading).
      cbn. by rewrite with_quiz_attempts_same.
  - destruct (reads_where wh) eqn:Hw.
    + unfold delete_from. rewrite Hw. by rewrite row_security_reading by (by right || done).
    + rewrite delete_from_unreached by (rewrite Hw; by apply row_security_not_reading).
      cbn. by rewrite with_quiz_attempts_same.
Qed.

(** The student of [example_db] deletes assignment 20, and all assignments. *)
Lemma X17_no_policy_for_update_or_delete_witness :
  client_exec_run (Some "auth-1") 9
    (delete_assignments (where_ (λ a, N.eqb (Assignment.id a) 20))) example_db
  = Raise invalid_object_definition
  ∧ client_exec_run (Some "auth-1") 9 (delete_assignments every_row) example_db
    = Ok example_db.
Proof.
  split.
  - apply (X17_no_policy_for_update_or_delete (Some "auth-1") 9%Z
             (delete_assignments (where_ (λ a, N.eqb (Assignment.id a) 20))) example_db).
    + reflexivity.
    + apply client_exec_run_sound.
  - apply (X17_no_policy_for_update_or_delete (Some "auth-1") 9%Z
             (delete_assignments every_row) example_db).
    + reflexivity.
    + apply client_exec_run_sound.
Defined.

(** X18. No client can update a project, its owner, a mentor or an admin:
    the [UPDATE] policy has the sub-select on [users], and every such
    statement ends with 42P17. In particular nobody can set or take away
    [verified] through this path. *)
Theorem X18_client_update_projects_recursion uid now wh set db r :
  client_exec uid now (update_projects wh set) db r →
  r = Raise invalid_object_definition.
Proof.
  intros Hr.
  apply (proj1 (execute_iff (client uid) now (update_projects wh set) db r)) in Hr as ->.
  unfold execute_run, apply_statement, update_table.
  by rewrite row_security_reads_users.
Qed.

(** The mentor of [mentor_db] takes the verification of project 10 away. *)
Lemma X18_client_update_projects_recursion_witness :
  client_exec_run (Some "auth-2") 9
    (update_projects (where_ (λ p, N.eqb (Project.id p) 10))
       (set_values (λ p, Project.mk (Project.id p) (Project.owner_id p) (Project.tags p)
                                    (Some false))))
    mentor_db
  = Raise invalid_object_definition.
Proof.
  apply (X18_client_update_projects_recursion (Some "auth-2") 9%Z
           (where_ (λ p, N.eqb (Project.id p) 10))
           (set_values (λ p, Project.mk (Project.id p) (Project.owner_id p) (Project.tags p)
                                        (Some false)))
           mentor_db).
  apply client_exec_run_sound.
Defined.

(** X20. Whatever the command and the table, a policy with a sub-select on
    [users] cannot be expanded for a client: the expansion ends with 42P17.
    This holds for the [INSERT] policy of [quizzes], so that no mentor can
    create a quiz, and for the [SELECT] policies of [users] itself, so that
    no client can read that table. *)
Theorem X20_policies_on_users_recurse uid db cmd t :
  existsb pol_reads_users (applicable cmd t) = true →
  quals depth [] uid db cmd t = inl invalid_object_definition
  ∧ ∀ reads, row_security (client uid) db cmd reads t = inl invalid_object_definition.
Proof.
  intros H. split; [by apply quals_reads_users|].
  intros reads. by apply row_security_reads_users.
Qed.

Lemma X20_policies_on_users_recurse_witness :
  quals depth [] (Some "auth-2") example_db cmd_insert t_quizzes
  = inl invalid_object_definition
  ∧ ∀ reads, row_security (client (Some "auth-2")) example_db cmd_select reads t_users
             = inl invalid_object_definition.
Proof.
  split.
  - apply (X20_policies_on_users_recurse (Some "auth-2") example_db cmd_insert t_quizzes).
    reflexivity.
  - apply (X20_policies_on_users_recurse (Some "auth-2") example_db cmd_select t_users).
    reflexivity.
Defined.

(** ** The Gemini proxy and its client *)

(** One request at most goes to Gemini, and only for an authenticated caller
    whose body gave a prompt and options. *)
Lemma serve_sent `{Edge.engine} (sv : Edge.services) (req : Edge.request) (greq : Edge.gemini_request) :
  In greq (Edge.serve sv req).1 →
  Edge.method req ≠ "OPTIONS" ∧ Edge.authenticated sv req = true ∧
  ∃ v prompt options,
    Edge.json req = Some v ∧ Edge.destructure v = inr (prompt, options) ∧
    Edge.gemini_body prompt options = inr greq ∧
    (Edge.serve sv req).1 = [greq].
Proof.
  unfold Edge.serve, Edge.try_block, Edge.authenticated.
  destruct (String.eqb (Edge.method req) "OPTIONS") eqn:Hm; [done|].
  apply String.eqb_neq in Hm.
  destruct (Edge.json req) as [v|]; [|done].
  destruct (Edge.destructure v) as [x|[p o]] eqn:Hd; [done|].
  destruct (Edge.authorization req) as [h|]; [|done].
  destruct (String.eqb h ""); [done|].
  destruct (Edge.getUser sv h) as [[u|] [e|]]; try done.
  destruct (Edge.gemini_body p o) as [x|g] eqn:Hg; [done|].
  destruct (Edge.fetch sv g) as [x|gres]; [|destruct (Edge.gemini_json gres)];
    simpl; (intros [->|[]]; split; [done|]; split; [done|]; by exists v, p, o).
Qed.

Lemma or_else_truthy `{Edge.engine} (a d : Edge.value) :
  Edge.truthy d = true → Edge.truthy (Edge.or_else a d) = true.
Proof. unfold Edge.or_else. by destruct (Edge.truthy a) eqn:Ha. Qed.

Lemma gemini_body_config `{Edge.engine} (prompt options : Edge.value) (greq : Edge.gemini_request) :
  Edge.gemini_body prompt options = inr greq →
  ∃ t k p m,
    Edge.get options "temperature" = inr t ∧ Edge.get options "topK" = inr k ∧
    Edge.get options "topP" = inr p ∧ Edge.get options "maxOutputTokens" = inr m ∧
    greq = Edge.mk_gemini_request prompt
             (Edge.or_else t (Edge.num Edge.n_0_7)) (Edge.or_else k (Edge.num Edge.n_40))
             (Edge.or_else p (Edge.num Edge.n_0_95)) (Edge.or_else m (Edge.num Edge.n_1024))
             Edge.safety_settings.
Proof.
  unfold Edge.gemini_body.
  destruct (Edge.get options "temperature") as [x|t] eqn:Ht.
  { by repeat case_match. }
  destruct (Edge.get options "topK") as [x|k] eqn:Hk.
  { by repeat case_match. }
  destruct (Edge.get options "topP") as [x|p] eqn:Hp.
  { by repeat case_match. }
  destruct (Edge.get options "maxOutputTokens") as [x|m] eqn:Hm; [done|].
  intros [= <-]. by exists t, k, p, m.
Qed.

Lemma to_json_defined `{Edge.engine} (v : Edge.value) :
  v ≠ Edge.undefined → Edge.to_json v ≠ Edge.undefined.
Proof. destruct v; simpl; try done. by destruct (Edge.finite n). Qed.

Lemma destructure_sent `{Edge.engine} (prompt opts : Edge.value) :
  Edge.destructure
    (Edge.to_json (Edge.obj [("prompt", prompt); ("options", Edge.default_object opts)]))
  = inr (Edge.to_json prompt, Edge.to_json (Edge.default_object opts)).
Proof.
  assert (Edge.default_object opts ≠ Edge.undefined) as Ho by by destruct opts.
  pose proof (to_json_defined _ Ho) as Hj.
  destruct (Edge.default_object opts) eqn:Eo; try done;
    destruct prompt; simpl;
    repeat match goal with |- context [Edge.finite ?n] => destruct (Edge.finite n) end;
    reflexivity.
Qed.

(** X21. The proxy sends a request to Gemini only for a caller who sent a
    non-empty authorization header that [getUser] accepts without error, on a
    method other than OPTIONS, and then it sends exactly one. *)
Theorem X21_only_authenticated_reach_gemini `{Edge.engine}
    (sv : Edge.services) (req : Edge.request) :
  (Edge.serve sv req).1 ≠ [] →
  Edge.method req ≠ "OPTIONS" ∧ Edge.authenticated sv req = true ∧
  length (Edge.serve sv req).1 = 1.
Proof.
  intros Hne. destruct (Edge.serve sv req).1 as [|greq rest] eqn:Hs; [done|].
  destruct (serve_sent sv req greq) as (Hm & Ha & v & p & o & _ & _ & _ & Hone).
  { rewrite Hs. by left. }
  rewrite Hone in Hs. by injection Hs as <-.
Qed.

Lemma X21_only_authenticated_reach_gemini_witness :
  Edge.method Edge.example_request ≠ "OPTIONS" ∧
  Edge.authenticated Edge.example_services Edge.example_request = true ∧
  length (Edge.serve Edge.example_services Edge.example_request).1 = 1.
Proof.
  apply (X21_only_authenticated_reach_gemini Edge.example_services Edge.example_request).
  vm_compute. discriminate.
Defined.

(** X22. Whatever options the caller sends, the temperature, topK, topP and
    maxOutputTokens that reach Gemini are truthy (the four defaults being
    so): [||] lets no 0 through, so a temperature of 0 cannot be asked for.
    The safety settings are the fixed four. *)
Theorem X22_generation_config_never_falsy `{Edge.engine}
    (sv : Edge.services) (req : Edge.request) (greq : Edge.gemini_request) :
  Edge.falsy_number Edge.n_0_7 = false → Edge.falsy_number Edge.n_40 = false →
  Edge.falsy_number Edge.n_0_95 = false → Edge.falsy_number Edge.n_1024 = false →
  In greq (Edge.serve sv req).1 →
  Edge.truthy (Edge.temperature greq) = true ∧ Edge.truthy (Edge.topK greq) = true ∧
  Edge.truthy (Edge.topP greq) = true ∧ Edge.truthy (Edge.maxOutputTokens greq) = true ∧
  Edge.safetySettings greq = Edge.safety_settings.
Proof.
  intros H1 H2 H3 H4 Hin.
  destruct (serve_sent sv req greq Hin) as (_ & _ & v & p & o & _ & _ & Hb & _).
  destruct (gemini_body_config p o greq Hb) as (t & k & tp & m & _ & _ & _ & _ & ->).
  simpl. repeat split; apply or_else_truthy; simpl; by rewrite ?H1, ?H2, ?H3, ?H4.
Qed.

Lemma X22_generation_config_never_falsy_witness :
  In Edge.example_gemini_request (Edge.serve Edge.example_services Edge.example_request).1 ∧
  Edge.truthy (Edge.temperature Edge.example_gemini_request) = true.
Proof.
  assert (In Edge.example_gemini_request
            (Edge.serve Edge.example_services Edge.example_request).1) as Hin.
  { vm_compute. by left. }
  split; [done|].
  apply (X22_generation_config_never_falsy Edge.example_services Edge.example_request
           Edge.example_gemini_request); by try reflexivity.
Defined.

(** X23. The proxy drops the status of Gemini's answer. When Gemini answers
    with a JSON body the proxy answers 200 with that body, whatever Gemini's
    status; when the body is not JSON the proxy answers 500. *)
Theorem X23_gemini_status_is_dropped `{Edge.engine}
    (sv : Edge.services) (req : Edge.request)
    (greq : Edge.gemini_request) (gres : Edge.gemini_response) :
  In greq (Edge.serve sv req).1 →
  Edge.fetch sv greq = inr gres →
  (Edge.serve sv req).2 =
    match Edge.gemini_json gres with
    | Some data => Edge.mk_response 200 true (Edge.json_body data)
    | None => Edge.mk_response 500 true
                (Edge.json_body (Edge.obj [("error", Edge.str Edge.json_message)]))
    end.
Proof.
  intros Hin Hf.
  destruct (serve_sent sv req greq Hin) as (Hm & Ha & v & p & o & Hj & Hd & Hb & _).
  apply String.eqb_neq in Hm.
  unfold Edge.authenticated in Ha. unfold Edge.serve, Edge.try_block.
  rewrite Hm, Hj, Hd.
  destruct (Edge.authorization req) as [h|]; [|done].
  destruct (String.eqb h ""); [done|].
  destruct (Edge.getUser sv h) as [[u|] [e|]]; try done.
  rewrite Hb, Hf. by destruct (Edge.gemini_json gres).
Qed.

Lemma X23_gemini_status_is_dropped_witness :
  Edge.status (Edge.serve Edge.example_services Edge.example_request).2 = 200.
Proof.
  rewrite (X23_gemini_status_is_dropped Edge.example_services Edge.example_request
             Edge.example_gemini_request
             Edge.example_gemini_response).
  - reflexivity.
  - vm_compute. by left.
  - reflexivity.
Defined.

(** X24. [callGeminiSecure] over the proxy: when the request of a signed-in
    client reaches the proxy as it was sent, the client gets a value back
    exactly when the session's token is accepted, the options as they arrive
    are not [null] and Gemini answered with a JSON body, which is the value
    returned whatever Gemini's status; in every other case the call throws. *)
Theorem X24_client_returns_gemini_body `{Edge.engine}
    (sv : Edge.services) (access_token : string) (prompt opts v : Edge.value) :
  (Edge.callGeminiSecure (Some access_token) (λ req, (Edge.serve sv req).2) prompt opts).2
    = inr v
  ↔ (∃ user, Edge.getUser sv (String.append "Bearer " access_token) = (Some user, None)) ∧
    ∃ greq gres,
      Edge.gemini_body (Edge.to_json prompt) (Edge.to_json (Edge.default_object opts))
        = inr greq ∧
      Edge.fetch sv greq = inr gres ∧ Edge.gemini_json gres = Some v.
Proof.
  unfold Edge.callGeminiSecure, Edge.serve, Edge.try_block.
  cbn [Edge.method Edge.json Edge.authorization String.eqb Ascii.eqb Bool.eqb].
  rewrite destructure_sent.
  cbn [String.append String.eqb].
  destruct (Edge.getUser sv _) as [[u|] [e|]] eqn:Hu;
    try (split; [done|by intros [[? [=]] _]]).
  destruct (Edge.gemini_body _ _) as [x|greq] eqn:Hb.
  { split; [done|by intros (_ & ? & ? & [=] & _)]. }
  destruct (Edge.fetch sv greq) as [x|gres] eqn:Hf.
  { split; [done|]. intros (_ & ? & ? & [= <-] & Hf' & _). by rewrite Hf in Hf'. }
  destruct (Edge.gemini_json gres) as [data|] eqn:Hd.
  - cbn. split.
    + intros [= ->]. split; [by exists u|]. by exists greq, gres.
    + intros (_ & ? & ? & [= <-] & Hf' & Hd'). rewrite Hf in Hf'.
      injection Hf' as <-. rewrite Hd in Hd'. by injection Hd' as ->.
  - cbn. split; [done|]. intros (_ & ? & ? & [= <-] & Hf' & Hd').
    rewrite Hf in Hf'. injection Hf' as <-. by rewrite Hd in Hd'.
Qed.

(** X25. The proxy reads the body before it looks at the caller. The
    answer is 401 exactly when the method is not OPTIONS, the body is JSON
    other than [null] and the caller is not authenticated; a caller without
    credentials whose body is not JSON gets 500. *)
Theorem X25_unauthorized_after_body `{Edge.engine}
    (sv : Edge.services) (req : Edge.request) :
  Edge.status (Edge.serve sv req).2 = 401 ↔
    Edge.method req ≠ "OPTIONS" ∧
    (∃ v, Edge.json req = Some v ∧ v ≠ Edge.null ∧ v ≠ Edge.undefined) ∧
    Edge.authenticated sv req = false.
Proof.
  unfold Edge.serve, Edge.try_block, Edge.authenticated.
  destruct (String.eqb (Edge.method req) "OPTIONS") eqn:Hm.
  { apply String.eqb_eq in Hm. split; [done|]. by intros [? _]. }
  apply String.eqb_neq in Hm.
  destruct (Edge.json req) as [v|].
  2:{ split; [done|]. by intros (_ & [? [[=] _]] & _). }
  destruct (Edge.destructure v) as [x|[p o]] eqn:Hd.
  { split; [done|]. intros (_ & (? & [= <-] & ? & ?) & _). by destruct v. }
  assert (v ≠ Edge.null ∧ v ≠ Edge.undefined) as Hv by by destruct v.
  destruct (Edge.authorization req) as [h|]; [|by split; [eauto|]].
  destruct (String.eqb h ""); [by split; [eauto|]|].
  destruct (Edge.getUser sv h) as [[u|] [e|]]; try by split; [eauto|].
  simpl. split; [|by intros (_ & _ & [=])].
  destruct (Edge.gemini_body p o) as [x|greq]; [done|].
  destruct (Edge.fetch sv greq) as [x|gres]; [done|].
  by destruct (Edge.gemini_json gres).
Qed.
